(** * thl-mods: the resolution patcher [patch_resolution.py]

    A shallow embedding of [create_patches], [apply_patches] and [main],
    followed by the properties of the patch engine.

    Python values are modelled as follows:
    - [bytes] and [bytearray] are lists of bytes; a [bytearray] that the
      code mutates in place is the state of a small monad;
    - [int] is [Z];
    - [print] appends one string to the console output of the call;
    - the exceptions the patcher can raise are [struct.error], from
      [struct], and [ValueError], from the conversion of an int of more
      than 4300 digits to a decimal string. *)

From Stdlib Require Import ZArith List String Ascii Lia Bool Permutation.
From Stdlib Require Import DecimalString.
From coqutil Require Import Byte Word.LittleEndianList.
Import ListNotations.
Local Open Scope string_scope.
Local Open Scope list_scope.
Local Open Scope Z_scope.

(** ** Exceptions and the console/state monad *)

Inductive exn : Type :=
| StructError
| ValueError.

Inductive result (A : Type) : Type :=
| Ok (a : A)
| Raise (e : exn).

Arguments Ok {A} a.
Arguments Raise {A} e.

(** A computation over a mutable state [S]: it returns a value or raises,
    leaves a state behind in both cases, and prints lines. *)
Definition M (S A : Type) : Type := S -> result A * S * list string.

Definition ret {S A : Type} (a : A) : M S A :=
  fun s => (Ok a, s, []).

Definition bind {S A B : Type} (m : M S A) (k : A -> M S B) : M S B :=
  fun s =>
    match m s with
    | (Ok a, s1, o1) =>
        match k a s1 with
        | (r, s2, o2) => (r, s2, o1 ++ o2)
        end
    | (Raise e, s1, o1) => (Raise e, s1, o1)
    end.

Definition print {S : Type} (line : string) : M S unit :=
  fun s => (Ok tt, s, [line]).

Definition lift_result {S A : Type} (r : result A) : M S A :=
  fun s => (r, s, []).

Definition get {S : Type} : M S S :=
  fun s => (Ok s, s, []).

Definition modify {S : Type} (f : S -> S) : M S unit :=
  fun s => (Ok tt, f s, []).

(** A call of a function that prints but has no state of its own. *)
Definition call {S A : Type} (c : result A * list string) : M S A :=
  fun s => (fst c, s, snd c).

(** A call of a function that mutates the object [obj] passed to it; the
    caller gets the object back as the callee left it. *)
Definition call_on {S T A : Type} (c : result A * T * list string) : M S T :=
  fun s =>
    match c with
    | (Ok _, t, o) => (Ok t, s, o)
    | (Raise e, _, o) => (Raise e, s, o)
    end.

Declare Scope monad_scope.
Delimit Scope monad_scope with monad.
Notation "x <- m ;; k" := (bind m (fun x => k))
  (at level 61, m at next level, right associativity) : monad_scope.
Notation "m ;; k" := (bind m (fun _ => k))
  (at level 61, right associativity) : monad_scope.
Local Open Scope monad_scope.

(** [for x in xs: body], with the loop-carried local [acc]. *)
Fixpoint for_fold {S A B : Type} (xs : list A) (acc : B)
    (body : B -> A -> M S B) : M S B :=
  match xs with
  | [] => ret acc
  | x :: rest => acc' <- body acc x ;; for_fold rest acc' body
  end.

Fixpoint for_each {S A : Type} (xs : list A) (body : A -> M S unit) : M S unit :=
  match xs with
  | [] => ret tt
  | x :: rest => body x ;; for_each rest body
  end.

Definition value_of {A S : Type} (c : result A * S * list string) : result A :=
  fst (fst c).
Definition state_after {A S : Type} (c : result A * S * list string) : S :=
  snd (fst c).
Definition printed {A S : Type} (c : result A * S * list string) : list string :=
  snd c.

(** ** Python primitives used by the script *)

Module Py.

Definition bytes : Type := list byte.

(** [a == b] on byte strings. *)
Fixpoint bytes_eqb (a b : bytes) : bool :=
  match a, b with
  | [], [] => true
  | x :: a', y :: b' => Byte.eqb x y && bytes_eqb a' b'
  | _, _ => false
  end.

Definition len (data : bytes) : Z := Z.of_nat (List.length data).

(** The adjustment of one slice bound to a sequence of length [n]:
    negative bounds count from the end, every bound is clamped to
    [0, n]. *)
Definition adjust (n i : Z) : Z :=
  if i <? 0 then Z.max (i + n) 0 else Z.min i n.

(** [data[start:stop]] *)
Definition getslice (data : bytes) (start stop : Z) : bytes :=
  let lo := adjust (len data) start in
  let hi := adjust (len data) stop in
  firstn (Z.to_nat (hi - lo)) (skipn (Z.to_nat lo) data).

(** [data[start:stop] = v] on a bytearray: the slice is replaced by [v],
    whatever the length of [v]; an empty or reversed slice inserts at
    [start]. *)
Definition setslice (data : bytes) (start stop : Z) (v : bytes) : bytes :=
  let lo := adjust (len data) start in
  let hi := Z.max lo (adjust (len data) stop) in
  firstn (Z.to_nat lo) data ++ v ++ skipn (Z.to_nat hi) data.

(** [struct.pack('<I', v)] *)
Definition pack_I (v : Z) : result bytes :=
  if (0 <=? v) && (v <? 2 ^ 32) then Ok (le_split 4 v) else Raise StructError.

(** [struct.unpack('<I', b)[0]] *)
Definition unpack_I (b : bytes) : result Z :=
  if (List.length b =? 4)%nat then Ok (le_combine b) else Raise StructError.

Definition nl : string := String (ascii_of_nat 10) EmptyString.
Definition dquote : string := String (ascii_of_nat 34) EmptyString.

(** [s * n] *)
Fixpoint str_mul (s : string) (n : nat) : string :=
  match n with
  | O => EmptyString
  | S n' => (s ++ str_mul s n')%string
  end.

(** The decimal digits of an int, with its sign. *)
Definition decimal (v : Z) : string :=
  DecimalString.NilZero.string_of_int (Z.to_int v).

(** The limit [sys.int_max_str_digits], at its default. *)
Definition max_str_digits : Z := 4300.

(** [f"{v}"] for an int: the conversion to a decimal string raises
    [ValueError] when the int has more than [max_str_digits] digits. *)
Definition str (v : Z) : result string :=
  if Z.abs v <? 10 ^ max_str_digits then Ok (decimal v) else Raise ValueError.

(** The digits of a hexadecimal numeral, letters in upper case. *)
Fixpoint hex_upper (d : Hexadecimal.uint) : string :=
  match d with
  | Hexadecimal.Nil => EmptyString
  | Hexadecimal.D0 d' => String "0" (hex_upper d')
  | Hexadecimal.D1 d' => String "1" (hex_upper d')
  | Hexadecimal.D2 d' => String "2" (hex_upper d')
  | Hexadecimal.D3 d' => String "3" (hex_upper d')
  | Hexadecimal.D4 d' => String "4" (hex_upper d')
  | Hexadecimal.D5 d' => String "5" (hex_upper d')
  | Hexadecimal.D6 d' => String "6" (hex_upper d')
  | Hexadecimal.D7 d' => String "7" (hex_upper d')
  | Hexadecimal.D8 d' => String "8" (hex_upper d')
  | Hexadecimal.D9 d' => String "9" (hex_upper d')
  | Hexadecimal.Da d' => String "A" (hex_upper d')
  | Hexadecimal.Db d' => String "B" (hex_upper d')
  | Hexadecimal.Dc d' => String "C" (hex_upper d')
  | Hexadecimal.Dd d' => String "D" (hex_upper d')
  | Hexadecimal.De d' => String "E" (hex_upper d')
  | Hexadecimal.Df d' => String "F" (hex_upper d')
  end.

Definition hex_digits (v : Z) : string :=
  hex_upper (N.to_hex_uint (Z.to_N v)).

(** [f"{v:X}"] *)
Definition format_X (v : Z) : string :=
  if v <? 0 then ("-" ++ hex_digits (- v))%string else hex_digits v.

Definition zfill (width : nat) (s : string) : string :=
  (str_mul "0" (width - String.length s) ++ s)%string.

(** [f"{v:08X}"]: the sign counts in the width and comes before the
    padding. *)
Definition format_08X (v : Z) : string :=
  if v <? 0 then ("-" ++ zfill 7 (hex_digits (- v)))%string
  else zfill 8 (hex_digits v).

(** Groups of three digits, from the right, of a reversed digit list. *)
Fixpoint group3 (rev_digits : list ascii) (k : nat) : list ascii :=
  match rev_digits with
  | [] => []
  | c :: rest =>
      match k with
      | O => ","%char :: c :: group3 rest 2
      | S k' => c :: group3 rest k'
      end
  end.

(** [f"{len(x):,}"].  A length is at most [sys.maxsize], far below the
    limit on the digits of a conversion, which therefore cannot raise. *)
Definition format_comma (v : Z) : string :=
  string_of_list_ascii
    (rev (group3 (rev (list_ascii_of_string (decimal v))) 3)).

(** [f"{len(x)}"], which cannot raise either. *)
Definition str_len (n : nat) : string := decimal (Z.of_nat n).

(** An f-string, given as the list of its literal and formatted parts. *)
Definition fstr (parts : list string) : string :=
  String.concat EmptyString parts.

End Py.

Import Py.

(** ** The script *)

(** [@dataclass class Patch] *)
Record Patch : Type := mkPatch {
  offset : Z;
  original : bytes;
  replacement : bytes;
  description : string
}.

(** The constructor that [@dataclass] generates: it stores its four
    arguments; the class has no [__post_init__]. *)
Definition Patch_init (offset : Z) (original replacement : bytes)
    (description : string) : result Patch :=
  Ok (mkPatch offset original replacement description).

Definition table_offset : Z := 0xBDA4F0.

(** The list literal [code_patches] of [create_patches]. *)
Definition code_patches (orig_width new_width orig_height new_height : bytes)
    : list (Z * bytes * bytes * string) :=
  [ (0x054DF7, orig_width, new_width, "Width getter (mov eax, 3840)");
    (0x4B4305, orig_width, new_width, "Resolution param width (mov edx, 3840)");
    (0x054D37, orig_height, new_height, "Height getter (mov eax, 2160)");
    (0x4B430B, orig_height, new_height, "Resolution param height (mov r8d, 2160)") ].

Definition create_patches_body (data : bytes) (target_width target_height : Z)
    : M unit (list Patch) :=
  let patches : list Patch := [] in
  width_digits <- lift_result (str target_width) ;;
  height_digits <- lift_result (str target_height) ;;
  print (fstr [nl; "Patching 3840x2160 -> "; width_digits; "x";
               height_digits]) ;;
  orig_width <- lift_result (pack_I 3840) ;;
  orig_height <- lift_result (pack_I 2160) ;;
  new_width <- lift_result (pack_I target_width) ;;
  new_height <- lift_result (pack_I target_height) ;;
  patches <-
    (if bytes_eqb (getslice data table_offset (table_offset + 4)) orig_width
     then
       width_digits <- lift_result (str target_width) ;;
       ret (patches ++ [mkPatch table_offset orig_width new_width
              (fstr ["Resolution table: 3840 -> "; width_digits; " (width)"])])
     else ret patches) ;;
  patches <-
    (if bytes_eqb (getslice data (table_offset + 4) (table_offset + 8))
          orig_height
     then
       height_digits <- lift_result (str target_height) ;;
       ret (patches ++ [mkPatch (table_offset + 4) orig_height new_height
              (fstr ["Resolution table: 2160 -> "; height_digits;
                     " (height)"])])
     else ret patches) ;;
  patches <- for_fold (code_patches orig_width new_width orig_height new_height)
    patches
    (fun patches '(offset, orig, new, desc) =>
       if bytes_eqb (getslice data offset (offset + 4)) orig
       then ret (patches ++ [mkPatch offset orig new desc])
       else
         print (fstr ["WARNING: Mismatch at 0x"; format_X offset;
                      ", skipping: "; desc]) ;;
         ret patches) ;;
  ret patches.

(** [create_patches(data, target_width, target_height)]: the value it
    returns or the exception it raises, and the lines it prints.  [data] is
    an immutable [bytes]. *)
Definition create_patches (data : bytes) (target_width target_height : Z)
    : result (list Patch) * list string :=
  let c := create_patches_body data target_width target_height tt in
  (value_of c, printed c).

(** The body of the loop [for patch in patches] of [apply_patches]. *)
Definition patch_step (dry_run : bool) (patch : Patch) : M bytes unit :=
  orig_val <- lift_result (unpack_I (original patch)) ;;
  new_val <- lift_result (unpack_I (replacement patch)) ;;
  orig_digits <- lift_result (str orig_val) ;;
  new_digits <- lift_result (str new_val) ;;
  print (fstr ["  0x"; format_08X (offset patch); ": "; orig_digits;
               " -> "; new_digits]) ;;
  print (fstr ["                   "; description patch]) ;;
  if negb dry_run
  then modify (fun data =>
         setslice data (offset patch)
           (offset patch + len (replacement patch)) (replacement patch))
  else ret tt.

Definition apply_patches_body (patches : list Patch) (dry_run : bool)
    : M bytes bytes :=
  print (Py.nl ++ str_mul "=" 60)%string ;;
  print (if negb dry_run then "PATCHES TO APPLY:" else "PATCHES (DRY RUN):") ;;
  print (str_mul "=" 60) ;;
  for_each patches (patch_step dry_run) ;;
  print (fstr [nl; "Total patches: "; str_len (List.length patches)]) ;;
  get.

(** [apply_patches(data, patches, dry_run)]: the value returned (the
    bytearray itself) or the exception, the bytearray as the call leaves it,
    and the lines printed. *)
Definition apply_patches (data : bytes) (patches : list Patch) (dry_run : bool)
    : result bytes * bytes * list string :=
  apply_patches_body patches dry_run data.

(** The command line as [argparse] hands it to [main]. *)
Record Args : Type := mkArgs {
  exe_path : string;
  dry_run : bool;
  width : Z;
  height : Z;
  no_backup : bool
}.

(** The files [main] can see: a path holds a content or does not exist. *)
Definition filesystem : Type := string -> option bytes.

Definition path_exists (fs : filesystem) (p : string) : bool :=
  match fs p with
  | Some _ => true
  | None => false
  end.

(** [open(p, 'wb').write(content)] *)
Definition write_file (p : string) (content : bytes) (fs : filesystem)
    : filesystem :=
  fun q => if String.eqb q p then Some content else fs q.

(** [shutil.copy2(src, dst)], for an existing [src]. *)
Definition copy2 (src dst : string) (fs : filesystem) : filesystem :=
  match fs src with
  | Some content => write_file dst content fs
  | None => fs
  end.

Section Main.

(** [pathlib.Path.with_suffix], a library function. *)
Variable with_suffix : string -> string -> string.

Definition main_body (args : Args) : M filesystem Z :=
  fs <- get ;;
  match fs (exe_path args) with
  | None =>
      print (fstr ["Error: File not found: "; exe_path args]) ;;
      ret 1
  | Some content =>
      print "Resolution Patch for The Hundred Line" ;;
      width_digits <- lift_result (str (width args)) ;;
      height_digits <- lift_result (str (height args)) ;;
      print (fstr ["Target resolution: "; width_digits; "x"; height_digits]) ;;
      print (str_mul "=" 60) ;;
      let data := content in
      print (fstr ["File size: "; format_comma (len data); " bytes"]) ;;
      patches <- call (create_patches data (width args) (height args)) ;;
      match patches with
      | [] =>
          print (fstr [nl; "No patches could be created. ";
                       "The executable may be different from expected."]) ;;
          ret 1
      | _ :: _ =>
          data <- call_on (apply_patches data patches (dry_run args)) ;;
          if dry_run args
          then
            print (fstr [nl; "[DRY RUN] No changes made."]) ;;
            ret 0
          else
            (if negb (no_backup args)
             then
               let backup_path := with_suffix (exe_path args) ".exe.backup" in
               fs <- get ;;
               if negb (path_exists fs backup_path)
               then
                 print (fstr [nl; "Creating backup: "; backup_path]) ;;
                 modify (copy2 (exe_path args) backup_path)
               else
                 print (fstr [nl; "Backup already exists: "; backup_path])
             else ret tt) ;;
            modify (write_file (exe_path args) data) ;;
            print (Py.nl ++ str_mul "=" 60)%string ;;
            print "DONE!" ;;
            print (str_mul "=" 60) ;;
            print (fstr [nl; "Update your userconfig.properties:"]) ;;
            width_digits <- lift_result (str (width args)) ;;
            print (fstr ["  "; dquote; "App.Window.W"; dquote; " : ";
                         width_digits; ","]) ;;
            height_digits <- lift_result (str (height args)) ;;
            print (fstr ["  "; dquote; "App.Window.H"; dquote; " : ";
                         height_digits; ","]) ;;
            print (fstr [nl; "Restore from backup if needed:"]) ;;
            print (fstr ["  copy ";
                         with_suffix (exe_path args) ".exe.backup"; " ";
                         exe_path args]) ;;
            ret 0
      end
  end.

(** [main()]: the exit status, the files as the run leaves them, and the
    console output. *)
Definition main (args : Args) (fs : filesystem)
    : result Z * filesystem * list string :=
  main_body args fs.

End Main.

(** * Vocabulary of the properties *)

(** ** Slices, as windows and splices of lists *)

(** The window of [k] bytes that starts at index [a]; shorter than [k] when
    the list ends before [a + k]. *)
Definition window (a k : nat) (data : bytes) : bytes :=
  firstn k (skipn a data).

(** [v] written over the bytes [a, a + length v). *)
Definition splice (a : nat) (v : bytes) (data : bytes) : bytes :=
  firstn a data ++ v ++ skipn (a + List.length v) data.

(** The bytes of [data] at [off, off + length v) are those of [v], one by
    one; all of them exist. *)
Definition byte_for_byte (data : bytes) (off : Z) (v : bytes) : Prop :=
  forall i, (i < List.length v)%nat ->
    nth_error data (Z.to_nat off + i) = nth_error v i.

(** ** The descriptor list of the specification

    The specification speaks of one fixed list of six descriptors; the code
    has two [if]s and a loop over [code_patches].  The list is written here
    after the specification, and [create_patches_eq] below relates the code
    to it. *)

(** The four bytes of 3840 and of 2160, little-endian. *)
Definition orig_width_bytes : bytes := [Byte.x00; Byte.x0f; Byte.x00; Byte.x00].
Definition orig_height_bytes : bytes := [Byte.x70; Byte.x08; Byte.x00; Byte.x00].

(** The two entries of the resolution table. *)
Definition table_descriptors (target_width target_height : Z) : list Patch :=
  [ mkPatch table_offset orig_width_bytes (le_split 4 target_width)
      (fstr ["Resolution table: 3840 -> "; decimal target_width; " (width)"]);
    mkPatch (table_offset + 4) orig_height_bytes (le_split 4 target_height)
      (fstr ["Resolution table: 2160 -> "; decimal target_height;
             " (height)"]) ].

(** The four code sites. *)
Definition code_descriptors (target_width target_height : Z) : list Patch :=
  [ mkPatch 0x054DF7 orig_width_bytes (le_split 4 target_width)
      "Width getter (mov eax, 3840)";
    mkPatch 0x4B4305 orig_width_bytes (le_split 4 target_width)
      "Resolution param width (mov edx, 3840)";
    mkPatch 0x054D37 orig_height_bytes (le_split 4 target_height)
      "Height getter (mov eax, 2160)";
    mkPatch 0x4B430B orig_height_bytes (le_split 4 target_height)
      "Resolution param height (mov r8d, 2160)" ].

(** The fixed descriptor list, in the order in which [create_patches]
    examines it. *)
Definition spec_descriptors (target_width target_height : Z) : list Patch :=
  table_descriptors target_width target_height
  ++ code_descriptors target_width target_height.

(** The test [create_patches] makes on a descriptor. *)
Definition matches (data : bytes) (d : Patch) : bool :=
  bytes_eqb (getslice data (offset d) (offset d + 4)) (original d).

(** The int has at most [max_str_digits] digits, so that its conversion to
    a decimal string does not raise. *)
Definition printable (v : Z) : bool := Z.abs v <? 10 ^ max_str_digits.

Definition header_line (target_width target_height : Z) : string :=
  fstr [nl; "Patching 3840x2160 -> "; decimal target_width; "x";
        decimal target_height].

Definition warning_line (d : Patch) : string :=
  fstr ["WARNING: Mismatch at 0x"; format_X (offset d); ", skipping: ";
        description d].

(** ** Plans *)

Definition in_bounds (data : bytes) (p : Patch) : Prop :=
  0 <= offset p /\ offset p + 4 <= len data.

Definition four_bytes (p : Patch) : Prop :=
  List.length (original p) = 4%nat /\ List.length (replacement p) = 4%nat.

(** The ranges of two patches do not meet. *)
Definition disjoint (p q : Patch) : Prop :=
  offset p + 4 <= offset q \/ offset q + 4 <= offset p.

(** Splits a [Forall] or [ForallOrdPairs] over a list literal into one goal
    for each element or pair. *)
Ltac each_element :=
  repeat first
    [ apply Forall_nil | apply Forall_cons | apply FOP_nil | apply FOP_cons ].

(** The plan of [create_patches]: in-bounds, four-byte, pairwise disjoint
    patches taken from the descriptor list. *)
Record plan_ok (data : bytes) (tw th : Z) (ps : list Patch) : Prop := {
  plan_filter : ps = filter (matches data) (spec_descriptors tw th);
  plan_four_bytes : Forall four_bytes ps;
  plan_in_bounds : Forall (in_bounds data) ps;
  plan_disjoint : ForallOrdPairs disjoint ps
}.

(** One committed patch: the slice assignment of [patch_step]. *)
Definition write (p : Patch) (data : bytes) : bytes :=
  setslice data (offset p) (offset p + len (replacement p)) (replacement p).

Definition write_all (ps : list Patch) (data : bytes) : bytes :=
  fold_left (fun d p => write p d) ps data.

(** The two lines [patch_step] prints for a patch of two four-byte values. *)
Definition patch_lines (p : Patch) : list string :=
  [ fstr ["  0x"; format_08X (offset p); ": ";
          decimal (le_combine (original p));
          " -> "; decimal (le_combine (replacement p))];
    fstr ["                   "; description p] ].

(** A window [b, b + k) that meets no patch of [ps]. *)
Definition clear_of (ps : list Patch) (b k : nat) : Prop :=
  forall p, In p ps ->
    Z.of_nat b + Z.of_nat k <= offset p \/ offset p + 4 <= Z.of_nat b.

(** ** Concrete inputs *)

(** A sample executable image that ends with the height getter's immediate:
    347447 zero bytes, then the four bytes of 2160.  Of the six descriptors
    only the height getter at 0x054D37 is in bounds, and it matches. *)
Definition sample_buffer : bytes :=
  repeat Byte.x00 (Z.to_nat 0x054D37) ++ orig_height_bytes.

Definition sample_plan : list Patch :=
  [ mkPatch 0x054D37 orig_height_bytes [Byte.x40; Byte.x0b; Byte.x00; Byte.x00]
      "Height getter (mov eax, 2160)" ].

Definition sample_output : list string :=
  [ fstr [nl; "Patching 3840x2160 -> 5120x2880"];
    "WARNING: Mismatch at 0x54DF7, skipping: Width getter (mov eax, 3840)";
    "WARNING: Mismatch at 0x4B4305, skipping: Resolution param width (mov edx, 3840)";
    "WARNING: Mismatch at 0x4B430B, skipping: Resolution param height (mov r8d, 2160)" ].

Definition good_patch : Patch :=
  mkPatch 0 [Byte.x00; Byte.x00; Byte.x00; Byte.x00]
    [Byte.xff; Byte.xff; Byte.xff; Byte.xff] "four bytes each".

Definition mismatched_patch : Patch :=
  mkPatch 4 [Byte.x00; Byte.x00; Byte.x00; Byte.x00] [Byte.xff]
    "one byte for four".

Definition empty_image_report : list string :=
  [ fstr [nl; "Patching 3840x2160 -> 5120x2880"];
    "WARNING: Mismatch at 0x54DF7, skipping: Width getter (mov eax, 3840)";
    "WARNING: Mismatch at 0x4B4305, skipping: Resolution param width (mov edx, 3840)";
    "WARNING: Mismatch at 0x54D37, skipping: Height getter (mov eax, 2160)";
    "WARNING: Mismatch at 0x4B430B, skipping: Resolution param height (mov r8d, 2160)" ].

(** Two buffers of 347451 bytes, enough to hold the height getter's range
    [0x054D37, 0x054D3B): one of zero bytes, one of 0xFF bytes. *)
Definition zero_image : bytes := repeat Byte.x00 (Z.to_nat 0x054D3B).
Definition ff_image : bytes := repeat Byte.xff (Z.to_nat 0x054D3B).

(** A run of [main] on a file that holds [zero_image]. *)
Definition sample_args : Args :=
  mkArgs "HUNDRED_LINE.exe" false 5120 2880 false.

Definition sample_files : filesystem :=
  fun p => if String.eqb p "HUNDRED_LINE.exe" then Some zero_image else None.

Definition no_patches_line : string :=
  fstr [nl; "No patches could be created. ";
        "The executable may be different from expected."].

(** ** Buffers after a commit *)

(** [b] is [data] with the replacement of every patch of [ps] in place: the
    same length, the replacement bytes in the range of each patch, the bytes
    of [data] in every window that meets no patch. *)
Definition patched (data : bytes) (ps : list Patch) (b : bytes) : Prop :=
  List.length b = List.length data
  /\ (forall p, In p ps ->
        window (Z.to_nat (offset p)) 4 b = replacement p)
  /\ (forall lo k, clear_of ps lo k -> window lo k b = window lo k data).

(** The index [i] lies in the range of the patch [p]. *)
Definition covers (p : Patch) (i : nat) : Prop :=
  offset p <= Z.of_nat i < offset p + 4.

(** ** The files after a run of [main] *)

(** The backup step of [main]: the executable is copied to the backup path
    unless [--no-backup] was given or the backup path exists already. *)
Definition backup_step (with_suffix : string -> string -> string)
    (args : Args) (fs : filesystem) : filesystem :=
  if negb (no_backup args)
  then
    if negb (path_exists fs (with_suffix (exe_path args) ".exe.backup"))
    then copy2 (exe_path args) (with_suffix (exe_path args) ".exe.backup") fs
    else fs
  else fs.

(** The four lines [main] prints before it calls [create_patches]. *)
Definition banner (args : Args) (content : bytes) : list string :=
  [ "Resolution Patch for The Hundred Line";
    fstr ["Target resolution: "; decimal (width args); "x";
          decimal (height args)];
    str_mul "=" 60;
    fstr ["File size: "; format_comma (len content); " bytes"] ].

(** ** More concrete inputs *)

(** An image that holds both getters: the height getter's immediate at
    0x054D37 and the width getter's at 0x054DF7. *)
Definition getters_image : bytes :=
  repeat Byte.x00 (Z.to_nat 0x054D37) ++ orig_height_bytes
  ++ repeat Byte.x00 (Z.to_nat (0x054DF7 - 0x054D3B)) ++ orig_width_bytes.

Definition getters_plan : list Patch :=
  [ mkPatch 0x054DF7 orig_width_bytes [Byte.x00; Byte.x14; Byte.x00; Byte.x00]
      "Width getter (mov eax, 3840)";
    mkPatch 0x054D37 orig_height_bytes [Byte.x40; Byte.x0b; Byte.x00; Byte.x00]
      "Height getter (mov eax, 2160)" ].

Definition getters_output : list string :=
  [ fstr [nl; "Patching 3840x2160 -> 5120x2880"];
    "WARNING: Mismatch at 0x4B4305, skipping: Resolution param width (mov edx, 3840)";
    "WARNING: Mismatch at 0x4B430B, skipping: Resolution param height (mov r8d, 2160)" ].

(** Runs of [main] on a file that holds [getters_image]. *)
Definition getters_files : filesystem :=
  fun p => if String.eqb p "HUNDRED_LINE.exe" then Some getters_image else None.

Definition commit_args : Args :=
  mkArgs "HUNDRED_LINE.exe" false 5120 2880 false.

Definition dry_run_args : Args :=
  mkArgs "HUNDRED_LINE.exe" true 5120 2880 false.

(** * Properties *)

(** ** Byte strings and slices *)

Lemma bytes_eqb_eq (a b : bytes) : bytes_eqb a b = true <-> a = b.
Proof.
  revert b; induction a as [|x a IH]; intros [|y b]; simpl;
    split; intros H; try reflexivity; try discriminate.
  - apply andb_true_iff in H as [Hxy Hab].
    apply Byte.byte_dec_bl in Hxy. apply IH in Hab. congruence.
  - inversion H; subst. apply andb_true_iff; split.
    + now apply Byte.byte_dec_lb.
    + now apply IH.
Qed.

Lemma bytes_eqb_neq (a b : bytes) : bytes_eqb a b = false <-> a <> b.
Proof.
  split.
  - intros H E. apply bytes_eqb_eq in E. congruence.
  - intros H. destruct (bytes_eqb a b) eqn:E; [|reflexivity].
    apply bytes_eqb_eq in E. contradiction.
Qed.

Lemma firstn_min_length (k : nat) (l : bytes) :
  firstn (Nat.min k (List.length l)) l = firstn k l.
Proof.
  destruct (Nat.le_gt_cases k (List.length l)) as [H|H].
  - now rewrite Nat.min_l.
  - rewrite Nat.min_r by lia. rewrite firstn_all.
    symmetry. apply firstn_all2. lia.
Qed.

Lemma getslice_window (data : bytes) (a k : Z) :
  0 <= a -> 0 <= k ->
  getslice data a (a + k) = window (Z.to_nat a) (Z.to_nat k) data.
Proof.
  intros Ha Hk. unfold getslice, window, adjust, len.
  destruct (a <? 0) eqn:E1; [apply Z.ltb_lt in E1; lia|].
  destruct (a + k <? 0) eqn:E2; [apply Z.ltb_lt in E2; lia|].
  destruct (Z.le_gt_cases a (Z.of_nat (List.length data))) as [H|H].
  - rewrite (Z.min_l a) by lia.
    rewrite <- (firstn_min_length (Z.to_nat k)).
    f_equal. rewrite length_skipn. lia.
  - rewrite (Z.min_r a) by lia.
    rewrite !skipn_all2 by lia. now rewrite !firstn_nil.
Qed.

Lemma setslice_splice (data v : bytes) (a : Z) :
  0 <= a -> a + len v <= len data ->
  setslice data a (a + len v) v = splice (Z.to_nat a) v data.
Proof.
  intros Ha Hb. unfold setslice, splice, adjust, len in *.
  destruct (a <? 0) eqn:E1; [apply Z.ltb_lt in E1; lia|].
  destruct (a + Z.of_nat (List.length v) <? 0) eqn:E2;
    [apply Z.ltb_lt in E2; lia|].
  rewrite (Z.min_l a) by lia.
  rewrite (Z.min_l (a + _)) by lia.
  rewrite Z.max_r by lia.
  do 3 f_equal. lia.
Qed.

Lemma nth_error_window (a k : nat) (data : bytes) (j : nat) :
  nth_error (window a k data) j =
  if (j <? k)%nat then nth_error data (a + j) else None.
Proof.
  unfold window. rewrite nth_error_firstn.
  destruct (j <? k)%nat; [apply nth_error_skipn | reflexivity].
Qed.

Lemma length_window (a k : nat) (data : bytes) :
  (a + k <= List.length data)%nat -> List.length (window a k data) = k.
Proof.
  intros H. unfold window. rewrite length_firstn, length_skipn. lia.
Qed.

Lemma length_window_inv (a k : nat) (data : bytes) :
  List.length (window a k data) = k -> (k = 0 \/ a + k <= List.length data)%nat.
Proof.
  unfold window. rewrite length_firstn, length_skipn. lia.
Qed.

Lemma length_splice (a : nat) (v data : bytes) :
  (a + List.length v <= List.length data)%nat ->
  List.length (splice a v data) = List.length data.
Proof.
  intros H. unfold splice.
  rewrite !length_app, length_firstn, length_skipn. lia.
Qed.

Lemma nth_error_splice (a : nat) (v data : bytes) (i : nat) :
  (a + List.length v <= List.length data)%nat ->
  nth_error (splice a v data) i =
  if ((a <=? i) && (i <? a + List.length v))%nat
  then nth_error v (i - a)
  else nth_error data i.
Proof.
  intros H. unfold splice.
  assert (Hl : List.length (firstn a data) = a)
    by (rewrite length_firstn; lia).
  rewrite nth_error_app, Hl.
  destruct (Nat.ltb_spec i a) as [Hia|Hia].
  - replace (a <=? i)%nat with false by (symmetry; apply Nat.leb_gt; lia).
    simpl. rewrite nth_error_firstn.
    now replace (i <? a)%nat with true by (symmetry; apply Nat.ltb_lt; lia).
  - replace (a <=? i)%nat with true by (symmetry; apply Nat.leb_le; lia).
    simpl. rewrite nth_error_app.
    destruct (Nat.ltb_spec (i - a) (List.length v)) as [Hv|Hv].
    + now replace (i <? a + List.length v)%nat with true
        by (symmetry; apply Nat.ltb_lt; lia).
    + replace (i <? a + List.length v)%nat with false
        by (symmetry; apply Nat.ltb_ge; lia).
      rewrite nth_error_skipn. f_equal. lia.
Qed.

Lemma window_splice_same (a : nat) (v data : bytes) :
  (a + List.length v <= List.length data)%nat ->
  window a (List.length v) (splice a v data) = v.
Proof.
  intros H. apply nth_error_ext. intros j.
  rewrite nth_error_window.
  destruct (Nat.ltb_spec j (List.length v)) as [Hj|Hj].
  - rewrite nth_error_splice by assumption.
    replace (a <=? a + j)%nat with true by (symmetry; apply Nat.leb_le; lia).
    replace (a + j <? a + List.length v)%nat with true
      by (symmetry; apply Nat.ltb_lt; lia).
    simpl. f_equal. lia.
  - symmetry. now apply nth_error_None.
Qed.

Lemma window_splice_other (a : nat) (v data : bytes) (b k : nat) :
  (a + List.length v <= List.length data)%nat ->
  (b + k <= a \/ a + List.length v <= b)%nat ->
  window b k (splice a v data) = window b k data.
Proof.
  intros H Hd. apply nth_error_ext. intros j.
  rewrite !nth_error_window.
  destruct (Nat.ltb_spec j k) as [Hj|Hj]; [|reflexivity].
  rewrite nth_error_splice by assumption.
  destruct Hd as [Hd|Hd].
  - replace (b + j <? a + List.length v)%nat with true
      by (symmetry; apply Nat.ltb_lt; lia).
    now replace (a <=? b + j)%nat with false
      by (symmetry; apply Nat.leb_gt; lia).
  - replace (b + j <? a + List.length v)%nat with false
      by (symmetry; apply Nat.ltb_ge; lia).
    now rewrite andb_false_r.
Qed.

Lemma window_eq_iff (a : nat) (v data : bytes) :
  window a (List.length v) data = v <->
  (forall i, (i < List.length v)%nat -> nth_error data (a + i) = nth_error v i).
Proof.
  split.
  - intros E i Hi.
    assert (Hw : nth_error (window a (List.length v) data) i = nth_error v i)
      by now rewrite E.
    rewrite nth_error_window in Hw.
    now replace (i <? List.length v)%nat with true in Hw
      by (symmetry; apply Nat.ltb_lt; lia).
  - intros H. apply nth_error_ext. intros j. rewrite nth_error_window.
    destruct (Nat.ltb_spec j (List.length v)) as [Hj|Hj].
    + now apply H.
    + symmetry. now apply nth_error_None.
Qed.

(** ** [struct.pack] and [struct.unpack] *)

Lemma pack_I_in_range (v : Z) :
  0 <= v < 2 ^ 32 -> pack_I v = Ok (le_split 4 v).
Proof.
  intros [H0 H1]. unfold pack_I.
  apply Z.leb_le in H0. apply Z.ltb_lt in H1. now rewrite H0, H1.
Qed.

Lemma pack_I_out_of_range (v : Z) :
  ~ (0 <= v < 2 ^ 32) -> pack_I v = Raise StructError.
Proof.
  intros H. unfold pack_I.
  destruct (0 <=? v) eqn:E0; [|reflexivity].
  destruct (v <? 2 ^ 32) eqn:E1; [|reflexivity].
  apply Z.leb_le in E0. apply Z.ltb_lt in E1. lia.
Qed.

Lemma pack_I_Ok_inv (v : Z) (b : bytes) :
  pack_I v = Ok b -> 0 <= v < 2 ^ 32 /\ b = le_split 4 v.
Proof.
  unfold pack_I.
  destruct (0 <=? v) eqn:E0; [|discriminate].
  destruct (v <? 2 ^ 32) eqn:E1; [|discriminate].
  apply Z.leb_le in E0. apply Z.ltb_lt in E1.
  intros [= <-]. split; [lia | reflexivity].
Qed.

Lemma pack_I_Raise_inv (v : Z) (e : exn) :
  pack_I v = Raise e -> e = StructError.
Proof.
  unfold pack_I. destruct ((0 <=? v) && (v <? 2 ^ 32)); [discriminate|].
  now intros [= <-].
Qed.

Lemma unpack_I_Ok (b : bytes) :
  List.length b = 4%nat -> unpack_I b = Ok (le_combine b).
Proof. intros H. unfold unpack_I. now rewrite H. Qed.

Lemma unpack_I_Raise (b : bytes) :
  List.length b <> 4%nat -> unpack_I b = Raise StructError.
Proof.
  intros H. unfold unpack_I.
  destruct (Nat.eqb_spec (List.length b) 4); [contradiction | reflexivity].
Qed.

Lemma unpack_I_range (b : bytes) (v : Z) :
  unpack_I b = Ok v -> 0 <= v < 2 ^ 32.
Proof.
  unfold unpack_I. destruct (Nat.eqb_spec (List.length b) 4) as [H|H];
    [|discriminate].
  intros [= <-]. pose proof (le_combine_bound b) as Hb.
  rewrite H in Hb. exact Hb.
Qed.

(** ** The conversion of an int to its decimal digits *)

Lemma str_Ok (v : Z) :
  Z.abs v < 10 ^ max_str_digits -> str v = Ok (decimal v).
Proof. intros H. unfold str. apply Z.ltb_lt in H. now rewrite H. Qed.

Lemma str_Raise (v : Z) :
  10 ^ max_str_digits <= Z.abs v -> str v = Raise ValueError.
Proof. intros H. unfold str. apply Z.ltb_ge in H. now rewrite H. Qed.

Lemma str_Ok_inv (v : Z) (digits : string) :
  str v = Ok digits -> Z.abs v < 10 ^ max_str_digits /\ digits = decimal v.
Proof.
  unfold str. destruct (Z.ltb_spec (Z.abs v) (10 ^ max_str_digits));
    [|discriminate].
  intros [= <-]. now split.
Qed.

Lemma uint32_below_digit_limit : 2 ^ 32 <= 10 ^ max_str_digits.
Proof.
  apply Z.le_trans with (10 ^ 32).
  - apply Z.pow_le_mono_l. lia.
  - apply Z.pow_le_mono_r; unfold max_str_digits; lia.
Qed.

(** A value that [struct] packs or unpacks has at most ten digits. *)
Lemma str_uint32 (v : Z) : 0 <= v < 2 ^ 32 -> str v = Ok (decimal v).
Proof.
  intros [H0 H1]. apply str_Ok. rewrite Z.abs_eq by assumption.
  apply Z.lt_le_trans with (2 ^ 32); [assumption|].
  apply uint32_below_digit_limit.
Qed.

(** ** The descriptor list of the specification *)

Lemma pack_I_3840 : pack_I 3840 = Ok orig_width_bytes.
Proof. reflexivity. Qed.

Lemma pack_I_2160 : pack_I 2160 = Ok orig_height_bytes.
Proof. reflexivity. Qed.

(** [create_patches], in one equation: the accepted patches are the
    descriptors that pass the test, in order; the console gets the header
    and one warning for each code site that fails it. *)
Lemma create_patches_eq (data : bytes) (tw th : Z) :
  0 <= tw < 2 ^ 32 -> 0 <= th < 2 ^ 32 ->
  create_patches data tw th =
  (Ok (filter (matches data) (spec_descriptors tw th)),
   header_line tw th
   :: map warning_line
        (filter (fun d => negb (matches data d)) (code_descriptors tw th))).
Proof.
  intros Hw Hh.
  unfold create_patches, create_patches_body.
  rewrite (str_uint32 tw Hw), (str_uint32 th Hh).
  rewrite pack_I_3840, pack_I_2160.
  rewrite (pack_I_in_range tw Hw), (pack_I_in_range th Hh).
  change (table_offset + 8) with (table_offset + 4 + 4).
  cbv [spec_descriptors table_descriptors code_descriptors matches filter
       app map negb offset original description warning_line header_line].
  cbv [bind print lift_result ret for_fold code_patches value_of printed
       fst snd].
  repeat match goal with
         | |- context [bytes_eqb ?a ?b] => destruct (bytes_eqb a b)
         end; reflexivity.
Qed.

(** ** What [create_patches] accepts *)

Lemma spec_descriptors_four_bytes (tw th : Z) :
  Forall four_bytes (spec_descriptors tw th).
Proof.
  unfold spec_descriptors, table_descriptors, code_descriptors.
  cbn [app]. each_element; split; cbn [original replacement];
    solve [reflexivity | apply length_le_split].
Qed.

Lemma spec_descriptors_offsets (tw th : Z) :
  Forall (fun d => 0 <= offset d) (spec_descriptors tw th).
Proof.
  unfold spec_descriptors, table_descriptors, code_descriptors, table_offset.
  cbn [app]. each_element; cbn [offset]; lia.
Qed.

Lemma spec_descriptors_disjoint (tw th : Z) :
  ForallOrdPairs disjoint (spec_descriptors tw th).
Proof.
  unfold spec_descriptors, table_descriptors, code_descriptors, table_offset.
  cbn [app]. each_element; unfold disjoint; cbn [offset]; lia.
Qed.

Lemma matches_true_iff (data : bytes) (d : Patch) :
  matches data d = true <->
  getslice data (offset d) (offset d + 4) = original d.
Proof. apply bytes_eqb_eq. Qed.

Lemma getslice_eq_byte_for_byte (data v : bytes) (off : Z) :
  0 <= off -> List.length v = 4%nat ->
  getslice data off (off + 4) = v <-> byte_for_byte data off v.
Proof.
  intros Hoff Hv. rewrite getslice_window by lia.
  change (Z.to_nat 4) with 4%nat. rewrite <- Hv.
  apply window_eq_iff.
Qed.

Lemma getslice_eq_in_bounds (data v : bytes) (off : Z) :
  0 <= off -> List.length v = 4%nat ->
  getslice data off (off + 4) = v -> off + 4 <= len data.
Proof.
  intros Hoff Hv E. rewrite getslice_window in E by lia.
  apply (f_equal (@List.length byte)) in E. rewrite Hv in E.
  change (Z.to_nat 4) with 4%nat in E.
  apply length_window_inv in E. unfold len. lia.
Qed.

Lemma Forall_filter_keep {A : Type} (P : A -> Prop) (f : A -> bool) (l : list A) :
  Forall P l -> Forall P (filter f l).
Proof.
  rewrite !Forall_forall. intros H x Hx. apply filter_In in Hx. now apply H.
Qed.

Lemma ForallOrdPairs_filter {A : Type} (R : A -> A -> Prop) (f : A -> bool)
    (l : list A) :
  ForallOrdPairs R l -> ForallOrdPairs R (filter f l).
Proof.
  induction 1 as [|a l Ha Hl IH]; cbn [filter]; [constructor|].
  destruct (f a); [|assumption].
  constructor; [now apply Forall_filter_keep | assumption].
Qed.

Lemma create_patches_Ok_inv (data : bytes) (tw th : Z) (ps : list Patch)
    (out : list string) :
  create_patches data tw th = (Ok ps, out) ->
  0 <= tw < 2 ^ 32 /\ 0 <= th < 2 ^ 32.
Proof.
  unfold create_patches, create_patches_body.
  rewrite pack_I_3840, pack_I_2160.
  destruct (str tw) as [ws|e]; [|discriminate].
  destruct (str th) as [hs|e]; [|discriminate].
  destruct (pack_I tw) as [nw|e] eqn:Ew; [|discriminate].
  destruct (pack_I th) as [nh|e] eqn:Eh; [|discriminate].
  intros _. apply pack_I_Ok_inv in Ew, Eh. tauto.
Qed.

Lemma create_patches_plan_ok (data : bytes) (tw th : Z) (ps : list Patch)
    (out : list string) :
  create_patches data tw th = (Ok ps, out) -> plan_ok data tw th ps.
Proof.
  intros H. destruct (create_patches_Ok_inv _ _ _ _ _ H) as [Hw Hh].
  rewrite (create_patches_eq data tw th Hw Hh) in H.
  assert (Hps : ps = filter (matches data) (spec_descriptors tw th))
    by congruence.
  clear H. subst ps. constructor.
  - reflexivity.
  - apply Forall_filter_keep, spec_descriptors_four_bytes.
  - apply Forall_forall. intros d Hd. apply filter_In in Hd as [Hd Hm].
    pose proof (spec_descriptors_offsets tw th) as Ho.
    pose proof (spec_descriptors_four_bytes tw th) as Hf.
    rewrite Forall_forall in Ho, Hf.
    specialize (Ho d Hd). destruct (Hf d Hd) as [Hlen _].
    split; [assumption|].
    apply matches_true_iff in Hm.
    now apply (getslice_eq_in_bounds data (original d)).
  - apply ForallOrdPairs_filter, spec_descriptors_disjoint.
Qed.

(** ** The loop of [apply_patches] *)

Lemma for_each_cons {S A : Type} (x : A) (xs : list A) (body : A -> M S unit)
    (s : S) :
  for_each (x :: xs) body s =
  match body x s with
  | (Ok _, s1, o1) =>
      match for_each xs body s1 with
      | (r, s2, o2) => (r, s2, o1 ++ o2)
      end
  | (Raise e, s1, o1) => (Raise e, s1, o1)
  end.
Proof. reflexivity. Qed.

(** One turn of the loop: it raises before printing when a value is not
    four bytes long, and writes only in commit mode.  The two values it
    prints are below 2^32, so their conversion to digits does not raise. *)
Lemma patch_step_eq (dry : bool) (p : Patch) (data : bytes) :
  patch_step dry p data =
  match unpack_I (original p), unpack_I (replacement p) with
  | Ok ov, Ok nv =>
      (Ok tt, if dry then data else write p data,
       [ fstr ["  0x"; format_08X (offset p); ": "; decimal ov; " -> ";
               decimal nv];
         fstr ["                   "; description p] ])
  | Ok _, Raise e => (Raise e, data, [])
  | Raise e, _ => (Raise e, data, [])
  end.
Proof.
  unfold patch_step.
  destruct (unpack_I (original p)) as [ov|e] eqn:Eo; [|reflexivity].
  destruct (unpack_I (replacement p)) as [nv|e] eqn:Er; [|reflexivity].
  cbv [bind lift_result].
  rewrite (str_uint32 ov (unpack_I_range _ _ Eo)).
  rewrite (str_uint32 nv (unpack_I_range _ _ Er)).
  destruct dry; reflexivity.
Qed.

Lemma for_each_commit (ps : list Patch) :
  Forall four_bytes ps ->
  forall data,
    for_each ps (patch_step false) data =
    (Ok tt, write_all ps data, flat_map patch_lines ps).
Proof.
  induction 1 as [|p ps [Ho Hr] _ IH]; intros data; [reflexivity|].
  rewrite for_each_cons, patch_step_eq.
  rewrite (unpack_I_Ok _ Ho), (unpack_I_Ok _ Hr), IH.
  reflexivity.
Qed.

Lemma for_each_dry_run (ps : list Patch) (data : bytes) :
  state_after (for_each ps (patch_step true) data) = data.
Proof.
  induction ps as [|p ps IH]; [reflexivity|].
  rewrite for_each_cons, patch_step_eq.
  destruct (unpack_I (original p)) as [ov|e]; [|reflexivity].
  destruct (unpack_I (replacement p)) as [nv|e]; [|reflexivity].
  destruct (for_each ps (patch_step true) data) as [[r s] o].
  exact IH.
Qed.

Lemma apply_patches_commit (data : bytes) (ps : list Patch) :
  Forall four_bytes ps ->
  apply_patches data ps false =
  (Ok (write_all ps data), write_all ps data,
   [ (Py.nl ++ str_mul "=" 60)%string; "PATCHES TO APPLY:"; str_mul "=" 60 ]
   ++ flat_map patch_lines ps
   ++ [ fstr [nl; "Total patches: "; str_len (List.length ps)] ]).
Proof.
  intros H. unfold apply_patches, apply_patches_body.
  cbv [bind print get negb]. rewrite (for_each_commit ps H).
  reflexivity.
Qed.

Lemma write_splice (data : bytes) (p : Patch) :
  in_bounds data p -> List.length (replacement p) = 4%nat ->
  write p data = splice (Z.to_nat (offset p)) (replacement p) data.
Proof.
  intros [H0 H1] Hr. unfold write.
  apply setslice_splice; [assumption|]. unfold len in *. lia.
Qed.

Lemma length_write (data : bytes) (p : Patch) :
  in_bounds data p -> List.length (replacement p) = 4%nat ->
  List.length (write p data) = List.length data.
Proof.
  intros Hb Hr. rewrite write_splice by assumption.
  apply length_splice. destruct Hb as [H0 H1]. unfold len in *. lia.
Qed.

Lemma in_bounds_same_length (data data' : bytes) (p : Patch) :
  List.length data' = List.length data -> in_bounds data p -> in_bounds data' p.
Proof. unfold in_bounds, len. intros ->. trivial. Qed.

Lemma write_all_props (ps : list Patch) :
  ForallOrdPairs disjoint ps -> Forall four_bytes ps ->
  forall data, Forall (in_bounds data) ps ->
    List.length (write_all ps data) = List.length data
    /\ (forall b k, clear_of ps b k ->
          window b k (write_all ps data) = window b k data)
    /\ (forall p, In p ps ->
          window (Z.to_nat (offset p)) 4 (write_all ps data) = replacement p).
Proof.
  induction 1 as [|p ps Hp Hps IH]; intros Hf data Hb.
  - repeat split; intros; try reflexivity. contradiction.
  - inversion Hf as [|? ? [Hpo Hpr] Hf']; subst.
    inversion Hb as [|? ? Hpb Hb']; subst.
    cbn [write_all fold_left]. fold (write_all ps (write p data)).
    pose proof (length_write data p Hpb Hpr) as Hlen.
    assert (Hb2 : Forall (in_bounds (write p data)) ps).
    { revert Hb'. apply Forall_impl. intros q.
      now apply in_bounds_same_length. }
    destruct (IH Hf' (write p data) Hb2) as (IHlen & IHout & IHin).
    assert (Hsp : (Z.to_nat (offset p) + List.length (replacement p)
                   <= List.length data)%nat).
    { destruct Hpb as [H0 H1]. unfold len in H1. lia. }
    split; [congruence|]. split.
    + intros b k Hc. rewrite IHout.
      * rewrite write_splice by assumption.
        apply window_splice_other; [assumption|].
        destruct (Hc p (or_introl eq_refl)) as [H|H];
          destruct Hpb as [H0 H1]; lia.
      * intros q Hq. apply Hc. now right.
    + intros q [<-|Hq].
      * rewrite IHout.
        -- rewrite write_splice by assumption.
           rewrite <- Hpr at 1. now apply window_splice_same.
        -- intros q Hq. rewrite Forall_forall in Hp, Hb'.
           destruct (Hp q Hq) as [H|H]; destruct (Hb' q Hq) as [H0 H1];
             destruct Hpb as [H2 H3]; lia.
      * now apply IHin.
Qed.

Lemma for_each_dry_run_ok (ps : list Patch) :
  Forall four_bytes ps ->
  forall data,
    for_each ps (patch_step true) data =
    (Ok tt, data, flat_map patch_lines ps).
Proof.
  induction 1 as [|p ps [Ho Hr] _ IH]; intros data; [reflexivity|].
  rewrite for_each_cons, patch_step_eq.
  rewrite (unpack_I_Ok _ Ho), (unpack_I_Ok _ Hr), IH.
  reflexivity.
Qed.

Lemma filter_none {A : Type} (f : A -> bool) (l : list A) :
  (forall x, In x l -> f x = false) -> filter f l = [].
Proof.
  induction l as [|a l IH]; intros H; [reflexivity|].
  cbn [filter]. rewrite (H a (or_introl eq_refl)).
  apply IH. intros x Hx. apply H. now right.
Qed.

Lemma disjoint_sym (p q : Patch) : disjoint p q -> disjoint q p.
Proof. unfold disjoint. tauto. Qed.

Example sample_create_patches :
  create_patches sample_buffer 5120 2880 = (Ok sample_plan, sample_output).
Proof. vm_compute. reflexivity. Qed.

(** * Main results *)

(** C1. For every descriptor of the fixed list (the two resolution-table
    entries and the four code sites), [create_patches] puts it in the
    returned list if and only if the buffer bytes at [offset, offset + 4)
    are, byte for byte, the descriptor's expected original bytes.  The list
    holds whole descriptors only: every patch in it is one of the six. *)
Theorem C1_accepted_iff_bytes_match (data : bytes) (tw th : Z)
    (ps : list Patch) (out : list string) :
  create_patches data tw th = (Ok ps, out) ->
  (forall d, In d (spec_descriptors tw th) ->
     (In d ps <-> byte_for_byte data (offset d) (original d)))
  /\ (forall p, In p ps -> In p (spec_descriptors tw th)).
Proof.
  intros H. destruct (create_patches_plan_ok _ _ _ _ _ H) as [Hps _ _ _].
  split.
  - intros d Hd.
    pose proof (spec_descriptors_offsets tw th) as Ho.
    pose proof (spec_descriptors_four_bytes tw th) as Hf.
    rewrite Forall_forall in Ho, Hf.
    specialize (Ho d Hd). destruct (Hf d Hd) as [Hlen _].
    rewrite <- (getslice_eq_byte_for_byte data (original d) (offset d) Ho Hlen).
    rewrite <- matches_true_iff. rewrite Hps, filter_In. tauto.
  - intros p Hp. rewrite Hps in Hp. now apply filter_In in Hp.
Qed.

Lemma C1_accepted_iff_bytes_match_witness :
  (forall d, In d (spec_descriptors 5120 2880) ->
     (In d sample_plan <-> byte_for_byte sample_buffer (offset d) (original d)))
  /\ (forall p, In p sample_plan -> In p (spec_descriptors 5120 2880)).
Proof.
  apply (C1_accepted_iff_bytes_match sample_buffer 5120 2880 sample_plan
           sample_output).
  vm_compute. reflexivity.
Defined.

(** C2. For every buffer and every plan that [create_patches] produced on
    it, [apply_patches] with [dry_run = False] returns the buffer, whose
    length is unchanged, whose bytes at [offset, offset + 4) are the
    replacement bytes for every accepted patch, and whose every other byte
    is the one it held before the call. *)
Theorem C2_commit_changes_only_accepted_ranges (data : bytes) (tw th : Z)
    (ps : list Patch) (out : list string) :
  create_patches data tw th = (Ok ps, out) ->
  let run := apply_patches data ps false in
  let data' := state_after run in
  value_of run = Ok data'
  /\ List.length data' = List.length data
  /\ (forall p, In p ps -> byte_for_byte data' (offset p) (replacement p))
  /\ (forall i : nat,
        (forall p, In p ps -> ~ (offset p <= Z.of_nat i < offset p + 4)) ->
        nth_error data' i = nth_error data i).
Proof.
  intros H. destruct (create_patches_plan_ok _ _ _ _ _ H) as [_ Hf Hb Hd].
  cbv zeta. rewrite (apply_patches_commit data ps Hf).
  unfold value_of, state_after. cbn [fst snd].
  destruct (write_all_props ps Hd Hf data Hb) as (Hlen & Hout & Hin).
  split; [reflexivity|]. split; [assumption|]. split.
  - intros p Hp. rewrite Forall_forall in Hf. destruct (Hf p Hp) as [_ Hr].
    unfold byte_for_byte. apply window_eq_iff. rewrite Hr. now apply Hin.
  - intros i Hi.
    assert (Hc : clear_of ps i 1).
    { intros p Hp. specialize (Hi p Hp). lia. }
    specialize (Hout i 1%nat Hc).
    apply (f_equal (fun l => nth_error l 0)) in Hout.
    rewrite !nth_error_window in Hout. cbn [Nat.ltb Nat.leb] in Hout.
    now rewrite Nat.add_0_r in Hout.
Qed.

Lemma C2_commit_changes_only_accepted_ranges_witness :
  let run := apply_patches sample_buffer sample_plan false in
  let data' := state_after run in
  value_of run = Ok data'
  /\ List.length data' = List.length sample_buffer
  /\ (forall p, In p sample_plan ->
        byte_for_byte data' (offset p) (replacement p))
  /\ (forall i : nat,
        (forall p, In p sample_plan ->
           ~ (offset p <= Z.of_nat i < offset p + 4)) ->
        nth_error data' i = nth_error sample_buffer i).
Proof.
  apply (C2_commit_changes_only_accepted_ranges sample_buffer 5120 2880
           sample_plan sample_output).
  vm_compute. reflexivity.
Defined.

(** C3. For every buffer and every plan, whatever it contains,
    [apply_patches] with [dry_run = True] leaves the buffer byte for byte as
    it was before the call, also when the call raises. *)
Theorem C3_dry_run_leaves_buffer (data : bytes) (ps : list Patch) :
  state_after (apply_patches data ps true) = data.
Proof.
  unfold apply_patches, apply_patches_body.
  cbv [bind print get negb].
  pose proof (for_each_dry_run ps data) as H.
  destruct (for_each ps (patch_step true) data) as [[[u|e] s] o];
    unfold state_after in *; cbn [fst snd] in *; exact H.
Qed.

Lemma apply_patches_dry_run (data : bytes) (ps : list Patch) :
  Forall four_bytes ps ->
  apply_patches data ps true =
  (Ok data, data,
   [ (Py.nl ++ str_mul "=" 60)%string; "PATCHES (DRY RUN):"; str_mul "=" 60 ]
   ++ flat_map patch_lines ps
   ++ [ fstr [nl; "Total patches: "; str_len (List.length ps)] ]).
Proof.
  intros H. unfold apply_patches, apply_patches_body.
  cbv [bind print get negb]. rewrite (for_each_dry_run_ok ps H).
  reflexivity.
Qed.

(** C4. When the plan was produced by [create_patches] on the same buffer,
    [apply_patches] returns normally, in dry-run mode and in commit mode,
    and the buffer keeps its length: every accepted patch has its range in
    bounds and a replacement of exactly four bytes, and the slice write of
    such a patch keeps the length of any buffer of that length. *)
Theorem C4_apply_after_plan_is_total (data : bytes) (tw th : Z)
    (ps : list Patch) (out : list string) (dry_run : bool) :
  create_patches data tw th = (Ok ps, out) ->
  (exists data' out',
     apply_patches data ps dry_run = (Ok data', data', out')
     /\ List.length data' = List.length data)
  /\ Forall (fun p =>
       0 <= offset p /\ offset p + 4 <= len data
       /\ List.length (replacement p) = 4%nat
       /\ forall buf, List.length buf = List.length data ->
            List.length (write p buf) = List.length buf) ps.
Proof.
  intros H. destruct (create_patches_plan_ok _ _ _ _ _ H) as [_ Hf Hb Hd].
  split.
  - destruct dry_run.
    + rewrite (apply_patches_dry_run data ps Hf). eauto.
    + rewrite (apply_patches_commit data ps Hf).
      destruct (write_all_props ps Hd Hf data Hb) as (Hlen & _ & _). eauto.
  - rewrite Forall_forall in *. intros p Hp.
    destruct (Hf p Hp) as [_ Hr]. destruct (Hb p Hp) as [H0 H1].
    repeat split; try assumption.
    intros buf Hbuf. apply length_write; [|assumption].
    apply (in_bounds_same_length data); [assumption | now split].
Qed.

Lemma C4_apply_after_plan_is_total_witness :
  (exists data' out',
     apply_patches sample_buffer sample_plan false = (Ok data', data', out')
     /\ List.length data' = List.length sample_buffer)
  /\ Forall (fun p =>
       0 <= offset p /\ offset p + 4 <= len sample_buffer
       /\ List.length (replacement p) = 4%nat
       /\ forall buf, List.length buf = List.length sample_buffer ->
            List.length (write p buf) = List.length buf) sample_plan.
Proof.
  apply (C4_apply_after_plan_is_total sample_buffer 5120 2880 sample_plan
           sample_output false).
  vm_compute. reflexivity.
Defined.

Lemma spec_descriptors_pairwise (tw th : Z) (d p : Patch) :
  In d (spec_descriptors tw th) -> In p (spec_descriptors tw th) ->
  d = p \/ disjoint d p.
Proof.
  intros Hd Hp.
  destruct (ForallOrdPairs_In (spec_descriptors_disjoint tw th) d p Hd Hp)
    as [H|[H|H]]; auto using disjoint_sym.
Qed.

Lemma spec_descriptors_replacement_differs (tw th : Z) :
  le_split 4 tw <> orig_width_bytes -> le_split 4 th <> orig_height_bytes ->
  Forall (fun d => replacement d <> original d) (spec_descriptors tw th).
Proof.
  intros Hw Hh.
  unfold spec_descriptors, table_descriptors, code_descriptors.
  cbn [app]. each_element; cbn [original replacement]; assumption.
Qed.

(** C5. For every buffer and every target width and height whose four-byte
    little-endian encodings differ from those of 3840 and of 2160, once the
    plan of [create_patches] has been committed by [apply_patches], a second
    [create_patches] on the buffer as it then is accepts no patch. *)
Theorem C5_second_plan_is_empty (data : bytes) (tw th : Z)
    (ps : list Patch) (out : list string) :
  pack_I tw <> pack_I 3840 -> pack_I th <> pack_I 2160 ->
  create_patches data tw th = (Ok ps, out) ->
  fst (create_patches (state_after (apply_patches data ps false)) tw th)
  = Ok [].
Proof.
  intros Hw Hh H.
  destruct (create_patches_Ok_inv _ _ _ _ _ H) as [Rw Rh].
  destruct (create_patches_plan_ok _ _ _ _ _ H) as [Hps Hf Hb Hd].
  rewrite (pack_I_in_range tw Rw), pack_I_3840 in Hw.
  rewrite (pack_I_in_range th Rh), pack_I_2160 in Hh.
  assert (Hw' : le_split 4 tw <> orig_width_bytes)
    by (intros E; apply Hw; now rewrite E).
  assert (Hh' : le_split 4 th <> orig_height_bytes)
    by (intros E; apply Hh; now rewrite E).
  rewrite (apply_patches_commit data ps Hf).
  unfold state_after. cbn [fst snd].
  rewrite (create_patches_eq _ tw th Rw Rh). cbn [fst]. f_equal.
  apply filter_none. intros d Hd'.
  destruct (write_all_props ps Hd Hf data Hb) as (_ & Hout & Hin).
  pose proof (spec_descriptors_offsets tw th) as Ho.
  pose proof (spec_descriptors_four_bytes tw th) as H4.
  pose proof (spec_descriptors_replacement_differs tw th Hw' Hh') as Hne.
  rewrite Forall_forall in Ho, H4, Hne.
  specialize (Ho d Hd'). specialize (Hne d Hd').
  destruct (H4 d Hd') as [Hlo Hlr].
  apply bytes_eqb_neq. rewrite getslice_window by lia.
  change (Z.to_nat 4) with 4%nat.
  destruct (matches data d) eqn:Em.
  - assert (Hin' : In d ps) by (rewrite Hps; apply filter_In; tauto).
    rewrite (Hin d Hin'). assumption.
  - rewrite Hout.
    + apply bytes_eqb_neq in Em. rewrite getslice_window in Em by lia.
      exact Em.
    + intros p Hp. rewrite Hps in Hp. apply filter_In in Hp as [Hp Hm].
      destruct (spec_descriptors_pairwise tw th d p Hd' Hp) as [E|[E|E]].
      * subst p. congruence.
      * left. lia.
      * right. lia.
Qed.

Lemma C5_second_plan_is_empty_witness :
  fst (create_patches
         (state_after (apply_patches sample_buffer sample_plan false))
         5120 2880)
  = Ok [].
Proof.
  apply (C5_second_plan_is_empty sample_buffer 5120 2880 sample_plan
           sample_output).
  - vm_compute. discriminate.
  - vm_compute. discriminate.
  - vm_compute. reflexivity.
Defined.

(** ** Descriptors of unequal lengths *)

Lemma for_each_app {S A : Type} (xs ys : list A) (body : A -> M S unit)
    (s s' : S) (o : list string) :
  for_each xs body s = (Ok tt, s', o) ->
  for_each (xs ++ ys) body s =
  (value_of (for_each ys body s'), state_after (for_each ys body s'),
   o ++ printed (for_each ys body s')).
Proof.
  revert s s' o. induction xs as [|x xs IH]; intros s s' o H.
  - cbn in H. injection H as <- <-. cbn [app].
    now destruct (for_each ys body s) as [[r t] o'].
  - cbn [app for_each] in *. unfold bind in *.
    destruct (body x s) as [[[u|e] s1] o1]; [|discriminate].
    destruct (for_each xs body s1) as [[r2 s2] o2] eqn:E2.
    injection H as -> -> <-. rewrite (IH _ _ _ E2).
    unfold value_of, state_after, printed. cbn [fst snd].
    now rewrite app_assoc.
Qed.

(** [apply_patches] in commit mode stops with [struct.error] at the first
    patch whose original or replacement is not four bytes long; the patches
    before it have been written by then. *)
Lemma apply_patches_raises_mid_apply (data : bytes) (good rest : list Patch)
    (bad : Patch) :
  Forall four_bytes good -> ~ four_bytes bad ->
  value_of (apply_patches data (good ++ bad :: rest) false) = Raise StructError
  /\ state_after (apply_patches data (good ++ bad :: rest) false)
     = write_all good data.
Proof.
  intros Hg Hb. unfold apply_patches, apply_patches_body.
  cbv [bind print get negb].
  rewrite (for_each_app good (bad :: rest) _ data _ _ (for_each_commit good Hg data)).
  assert (Hbad : for_each (bad :: rest) (patch_step false) (write_all good data)
                 = (Raise StructError, write_all good data, [])).
  { cbn [for_each]. unfold bind at 1. unfold patch_step at 1.
    destruct (Nat.eq_dec (List.length (original bad)) 4) as [Ho|Ho].
    - rewrite (unpack_I_Ok _ Ho).
      assert (Hr : List.length (replacement bad) <> 4%nat)
        by (intros Hr; apply Hb; now split).
      rewrite (unpack_I_Raise _ Hr). reflexivity.
    - rewrite (unpack_I_Raise _ Ho). reflexivity. }
  rewrite Hbad. unfold value_of, state_after. cbn [fst snd]. now split.
Qed.

(** C6, as stated, fails: a descriptor whose expected bytes (four) and
    replacement bytes (one) differ in length is constructed without error,
    and [apply_patches] meets it mid-apply, after it has written the patch
    before it. *)
Lemma C6_counterexample :
  Patch_init 4 [Byte.x00; Byte.x00; Byte.x00; Byte.x00] [Byte.xff]
    "one byte for four" = Ok mismatched_patch
  /\ List.length (original mismatched_patch)
     <> List.length (replacement mismatched_patch)
  /\ apply_patches (repeat Byte.x00 8) [good_patch; mismatched_patch] false
     = (Raise StructError,
        [Byte.xff; Byte.xff; Byte.xff; Byte.xff;
         Byte.x00; Byte.x00; Byte.x00; Byte.x00],
        [ (Py.nl ++ str_mul "=" 60)%string; "PATCHES TO APPLY:";
          str_mul "=" 60;
          "  0x00000000: 0 -> 4294967295";
          "                   four bytes each" ]).
Proof.
  split; [reflexivity|]. split; [cbn; discriminate|].
  vm_compute. reflexivity.
Qed.

(** C6, amended.  The constructor of [Patch] checks nothing: it returns the
    descriptor for any four arguments.  The descriptors that
    [create_patches] constructs have expected and replacement bytes of the
    same length, four bytes each. *)
Theorem C6_plan_descriptors_have_equal_lengths (data : bytes) (tw th : Z)
    (ps : list Patch) (out : list string) :
  create_patches data tw th = (Ok ps, out) ->
  (forall off orig repl desc,
     Patch_init off orig repl desc = Ok (mkPatch off orig repl desc))
  /\ Forall (fun p =>
       List.length (original p) = List.length (replacement p)
       /\ List.length (replacement p) = 4%nat) ps.
Proof.
  intros H. split; [reflexivity|].
  destruct (create_patches_plan_ok _ _ _ _ _ H) as [_ Hf _ _].
  revert Hf. apply Forall_impl. intros p [Ho Hr]. split; congruence.
Qed.

Lemma C6_plan_descriptors_have_equal_lengths_witness :
  (forall off orig repl desc,
     Patch_init off orig repl desc = Ok (mkPatch off orig repl desc))
  /\ Forall (fun p =>
       List.length (original p) = List.length (replacement p)
       /\ List.length (replacement p) = 4%nat) sample_plan.
Proof.
  apply (C6_plan_descriptors_have_equal_lengths sample_buffer 5120 2880
           sample_plan sample_output).
  vm_compute. reflexivity.
Defined.

(** ** Skipped descriptors *)

(** A descriptor whose range ends past the end of the buffer is not
    accepted, and [create_patches] returns normally. *)
Lemma out_of_bounds_descriptor_skipped (data : bytes) (tw th : Z) (d : Patch) :
  0 <= tw < 2 ^ 32 -> 0 <= th < 2 ^ 32 ->
  In d (spec_descriptors tw th) -> len data < offset d + 4 ->
  exists ps out,
    create_patches data tw th = (Ok ps, out) /\ ~ In d ps.
Proof.
  intros Hw Hh Hd Hlen. rewrite (create_patches_eq data tw th Hw Hh).
  eexists _, _. split; [reflexivity|].
  intros Hin. apply filter_In in Hin as [_ Hm].
  pose proof (spec_descriptors_offsets tw th) as Ho.
  pose proof (spec_descriptors_four_bytes tw th) as H4.
  rewrite Forall_forall in Ho, H4.
  destruct (H4 d Hd) as [Hlo _].
  apply matches_true_iff in Hm.
  pose proof (getslice_eq_in_bounds data (original d) (offset d)
                (Ho d Hd) Hlo Hm).
  lia.
Qed.

(** C7, on the empty buffer.  All six descriptors end past the end of the
    buffer and none is accepted, but the console holds a warning for the
    four code sites only: the two resolution-table entries at 0xBDA4F0 and
    0xBDA4F4 are skipped without any record. *)
Theorem C7_table_entries_skipped_without_record :
  Forall (fun d => len [] < offset d + 4) (spec_descriptors 5120 2880)
  /\ create_patches [] 5120 2880 = (Ok [], empty_image_report)
  /\ Forall (fun d => ~ In (warning_line d) empty_image_report)
       (table_descriptors 5120 2880).
Proof.
  split; [|split].
  - unfold spec_descriptors, table_descriptors, code_descriptors, table_offset.
    cbn [app]. each_element; cbn [offset]; change (len []) with 0; lia.
  - vm_compute. reflexivity.
  - unfold table_descriptors. each_element; vm_compute;
      intros H; repeat destruct H as [H|H];
      solve [discriminate H | contradiction H].
Qed.

Example zero_image_observed :
  getslice zero_image 0x054D37 (0x054D37 + 4)
  = [Byte.x00; Byte.x00; Byte.x00; Byte.x00].
Proof. vm_compute. reflexivity. Qed.

Example ff_image_observed :
  getslice ff_image 0x054D37 (0x054D37 + 4)
  = [Byte.xff; Byte.xff; Byte.xff; Byte.xff].
Proof. vm_compute. reflexivity. Qed.

Example zero_image_report :
  create_patches zero_image 5120 2880 = (Ok [], empty_image_report).
Proof. vm_compute. reflexivity. Qed.

Example ff_image_report :
  create_patches ff_image 5120 2880 = (Ok [], empty_image_report).
Proof. vm_compute. reflexivity. Qed.

(** C8, as stated, fails.  The height getter at 0x054D37 is skipped on a
    buffer that holds 00 00 00 00 there and on a buffer that holds
    FF FF FF FF there, and the two runs print the same five lines: the
    warning names the offset and the description, not the bytes observed.
    The lines are also those printed for the empty buffer. *)
Lemma C8_counterexample :
  getslice zero_image 0x054D37 (0x054D37 + 4)
  = [Byte.x00; Byte.x00; Byte.x00; Byte.x00]
  /\ getslice ff_image 0x054D37 (0x054D37 + 4)
     = [Byte.xff; Byte.xff; Byte.xff; Byte.xff]
  /\ create_patches zero_image 5120 2880 = (Ok [], empty_image_report)
  /\ create_patches ff_image 5120 2880 = (Ok [], empty_image_report).
Proof.
  exact (conj zero_image_observed
           (conj ff_image_observed (conj zero_image_report ff_image_report))).
Qed.

(** No reading of the console output recovers the bytes observed at a
    skipped offset. *)
Lemma report_does_not_determine_observed_bytes :
  ~ exists observed_in : list string -> Z -> bytes,
      forall data tw th ps out,
        create_patches data tw th = (Ok ps, out) ->
        forall d, In d (spec_descriptors tw th) -> ~ In d ps ->
          observed_in out (offset d) = getslice data (offset d) (offset d + 4).
Proof.
  intros [observed_in H].
  assert (Hd : In (mkPatch 0x054D37 orig_height_bytes (le_split 4 2880)
                     "Height getter (mov eax, 2160)")
                  (spec_descriptors 5120 2880))
    by (cbn; tauto).
  pose proof (H _ _ _ _ _ zero_image_report _ Hd (fun F => F)) as H0.
  pose proof (H _ _ _ _ _ ff_image_report _ Hd (fun F => F)) as H1.
  cbn [offset] in H0, H1.
  rewrite zero_image_observed in H0. rewrite ff_image_observed in H1.
  rewrite H0 in H1. discriminate H1.
Qed.

(** C8, amended.  For every code-site descriptor that [create_patches]
    skips, the console holds the line
    [WARNING: Mismatch at 0x<offset, hexadecimal>, skipping: <description>],
    which is made of the descriptor's offset and description alone. *)
Theorem C8_skipped_code_site_is_warned (data : bytes) (tw th : Z)
    (ps : list Patch) (out : list string) :
  create_patches data tw th = (Ok ps, out) ->
  forall d, In d (code_descriptors tw th) -> ~ In d ps ->
    In (warning_line d) out.
Proof.
  intros H d Hd Hn.
  destruct (create_patches_Ok_inv _ _ _ _ _ H) as [Hw Hh].
  rewrite (create_patches_eq data tw th Hw Hh) in H.
  assert (Hps : ps = filter (matches data) (spec_descriptors tw th))
    by congruence.
  assert (Hout : out = header_line tw th
                       :: map warning_line
                            (filter (fun d => negb (matches data d))
                               (code_descriptors tw th)))
    by congruence.
  clear H. subst out. right. apply in_map. apply filter_In. split; [assumption|].
  destruct (matches data d) eqn:Em; [|reflexivity].
  exfalso. apply Hn. subst ps. apply filter_In. split; [|assumption].
  unfold spec_descriptors. apply in_app_iff. now right.
Qed.

Lemma C8_skipped_code_site_is_warned_witness :
  In (warning_line
        (mkPatch 0x054DF7 orig_width_bytes (le_split 4 5120)
           "Width getter (mov eax, 3840)"))
     sample_output.
Proof.
  apply (C8_skipped_code_site_is_warned sample_buffer 5120 2880 sample_plan
           sample_output).
  - vm_compute. reflexivity.
  - left. reflexivity.
  - intros [H|[]]. discriminate H.
Defined.

(** ** The run of [main] *)

(** C9. Whenever [create_patches] accepts no descriptor, [main] returns the
    exit status 1 after printing that no patches could be created; the
    console holds the banner of [main], the output of [create_patches] and
    that line, nothing of [apply_patches]; and no file is written. *)
Theorem C9_empty_plan_is_a_failure (with_suffix : string -> string -> string)
    (args : Args) (fs : filesystem) (content : bytes) :
  fs (exe_path args) = Some content ->
  fst (create_patches content (width args) (height args)) = Ok [] ->
  main with_suffix args fs =
  (Ok 1, fs,
   [ "Resolution Patch for The Hundred Line";
     fstr ["Target resolution: "; decimal (width args); "x";
           decimal (height args)];
     str_mul "=" 60;
     fstr ["File size: "; format_comma (len content); " bytes"] ]
   ++ snd (create_patches content (width args) (height args))
   ++ [no_patches_line]).
Proof.
  intros Hfs Hplan.
  assert (H : create_patches content (width args) (height args)
              = (Ok [], snd (create_patches content (width args)
                               (height args)))).
  { destruct (create_patches content (width args) (height args)) as [r o].
    cbn [fst snd] in *. now subst r. }
  destruct (create_patches_Ok_inv _ _ _ _ _ H) as [Hw Hh].
  unfold main, main_body.
  unfold bind at 1. unfold get at 1. rewrite Hfs.
  rewrite (str_uint32 _ Hw), (str_uint32 _ Hh).
  destruct (create_patches content (width args) (height args)) as [r o].
  cbn [fst snd] in *. subst r.
  cbv [bind print call ret lift_result fst snd]. reflexivity.
Qed.

Lemma C9_empty_plan_is_a_failure_witness :
  main String.append sample_args sample_files =
  (Ok 1, sample_files,
   [ "Resolution Patch for The Hundred Line";
     fstr ["Target resolution: "; decimal (width sample_args); "x";
           decimal (height sample_args)];
     str_mul "=" 60;
     fstr ["File size: "; format_comma (len zero_image); " bytes"] ]
   ++ snd (create_patches zero_image (width sample_args) (height sample_args))
   ++ [no_patches_line]).
Proof.
  apply (C9_empty_plan_is_a_failure String.append sample_args sample_files
           zero_image).
  - reflexivity.
  - vm_compute. reflexivity.
Defined.

(** ** Targets that [struct] cannot pack *)

Lemma create_patches_unprintable (data : bytes) (tw th : Z) :
  printable tw && printable th = false ->
  create_patches data tw th = (Raise ValueError, []).
Proof.
  intros H. unfold create_patches, create_patches_body.
  unfold printable in H. unfold str.
  destruct (Z.abs tw <? 10 ^ max_str_digits); [|reflexivity].
  destruct (Z.abs th <? 10 ^ max_str_digits); [discriminate H | reflexivity].
Qed.

Lemma create_patches_unpackable (data : bytes) (tw th : Z) :
  printable tw && printable th = true ->
  ~ (0 <= tw < 2 ^ 32 /\ 0 <= th < 2 ^ 32) ->
  create_patches data tw th = (Raise StructError, [header_line tw th]).
Proof.
  intros Hp H. apply andb_true_iff in Hp as [Hw Hh].
  unfold printable in Hw, Hh. apply Z.ltb_lt in Hw, Hh.
  unfold create_patches, create_patches_body.
  rewrite (str_Ok tw Hw), (str_Ok th Hh).
  rewrite pack_I_3840, pack_I_2160.
  destruct (pack_I tw) as [nw|e] eqn:Ew;
    [|now rewrite (pack_I_Raise_inv _ _ Ew)].
  destruct (pack_I th) as [nh|e] eqn:Eh;
    [|now rewrite (pack_I_Raise_inv _ _ Eh)].
  apply pack_I_Ok_inv in Ew, Eh. tauto.
Qed.

(** C10, as stated, fails: for the target width 10^4300, which is at least
    2^32, [create_patches] raises [ValueError], not [struct.error]: the
    f-string of its header cannot convert an int of 4301 digits, and
    nothing is printed. *)
Lemma C10_counterexample :
  2 ^ 32 <= 10 ^ 4300
  /\ create_patches [] (10 ^ 4300) 2880 = (Raise ValueError, []).
Proof.
  split.
  - vm_compute. discriminate.
  - vm_compute. reflexivity.
Qed.

(** C10, amended.  For every target width or height that is negative or at
    least 2^32, [create_patches] raises before it examines any offset: it
    returns no plan, and the outcome is the same whatever the buffer holds.
    When both targets have at most 4300 digits the exception is
    [struct.error], raised when the value is packed, right after the header
    is printed; otherwise it is [ValueError], raised by the f-string of the
    header, and nothing is printed. *)
Theorem C10_unrepresentable_target_raises (data : bytes) (tw th : Z) :
  tw < 0 \/ 2 ^ 32 <= tw \/ th < 0 \/ 2 ^ 32 <= th ->
  create_patches data tw th =
  if printable tw && printable th
  then (Raise StructError, [header_line tw th])
  else (Raise ValueError, []).
Proof.
  intros H. destruct (printable tw && printable th) eqn:Hp.
  - apply create_patches_unpackable; [assumption | lia].
  - now apply create_patches_unprintable.
Qed.

Lemma C10_unrepresentable_target_raises_witness :
  create_patches sample_buffer (-1) 2880
  = (if printable (-1) && printable 2880
     then (Raise StructError, [header_line (-1) 2880])
     else (Raise ValueError, []))
  /\ create_patches sample_buffer 5120 (10 ^ 4300)
     = (if printable 5120 && printable (10 ^ 4300)
        then (Raise StructError, [header_line 5120 (10 ^ 4300)])
        else (Raise ValueError, [])).
Proof.
  split.
  - apply (C10_unrepresentable_target_raises sample_buffer (-1) 2880). lia.
  - apply (C10_unrepresentable_target_raises sample_buffer 5120 (10 ^ 4300)).
    right. right. right. vm_compute. discriminate.
Defined.

(** * Further properties of the patch engine *)

Example getters_create_patches :
  create_patches getters_image 5120 2880 = (Ok getters_plan, getters_output).
Proof. vm_compute. reflexivity. Qed.

(** ** The buffer a commit leaves *)

Lemma covers_or_clear (ps : list Patch) (i : nat) :
  (exists p, In p ps /\ covers p i) \/ clear_of ps i 1.
Proof.
  induction ps as [|q ps [[p [Hp Hc]]|Hclear]].
  - right. intros p [].
  - left. exists p. split; [now right | assumption].
  - destruct (Z_le_dec (offset q) (Z.of_nat i)) as [Hlo|Hlo];
      [destruct (Z_lt_dec (Z.of_nat i) (offset q + 4)) as [Hhi|Hhi]|].
    + left. exists q. split; [now left | split; assumption].
    + right. intros p [<-|Hp]; [right; lia | now apply Hclear].
    + right. intros p [<-|Hp]; [left; lia | now apply Hclear].
Qed.

Lemma patched_unique (data : bytes) (ps : list Patch) (b1 b2 : bytes) :
  Forall (fun p => 0 <= offset p) ps ->
  patched data ps b1 -> patched data ps b2 -> b1 = b2.
Proof.
  intros Hoff (_ & Hin1 & Hout1) (_ & Hin2 & Hout2).
  apply nth_error_ext. intros i.
  destruct (covers_or_clear ps i) as [[p [Hp [Hlo Hhi]]]|Hclear].
  - rewrite Forall_forall in Hoff. specialize (Hoff p Hp).
    pose proof (Hin1 p Hp) as E1. pose proof (Hin2 p Hp) as E2.
    apply (f_equal (fun l => nth_error l (i - Z.to_nat (offset p)))) in E1, E2.
    rewrite nth_error_window in E1, E2.
    replace (i - Z.to_nat (offset p) <? 4)%nat with true in E1, E2
      by (symmetry; apply Nat.ltb_lt; lia).
    replace (Z.to_nat (offset p) + (i - Z.to_nat (offset p)))%nat with i
      in E1, E2 by lia.
    congruence.
  - pose proof (Hout1 i 1%nat Hclear) as E1.
    pose proof (Hout2 i 1%nat Hclear) as E2.
    apply (f_equal (fun l => nth_error l 0)) in E1, E2.
    rewrite !nth_error_window in E1, E2. cbn [Nat.ltb Nat.leb] in E1, E2.
    rewrite Nat.add_0_r in E1, E2. congruence.
Qed.

Lemma write_all_patched (data : bytes) (ps : list Patch) :
  ForallOrdPairs disjoint ps -> Forall four_bytes ps ->
  Forall (in_bounds data) ps ->
  patched data ps (write_all ps data).
Proof.
  intros Hd Hf Hb.
  destruct (write_all_props ps Hd Hf data Hb) as (Hlen & Hout & Hin).
  repeat split; assumption.
Qed.

Lemma in_bounds_offsets (data : bytes) (ps : list Patch) :
  Forall (in_bounds data) ps -> Forall (fun p => 0 <= offset p) ps.
Proof. apply Forall_impl. now intros p [H _]. Qed.

Lemma FOP_NoDup (ps : list Patch) : ForallOrdPairs disjoint ps -> NoDup ps.
Proof.
  induction 1 as [|p ps Hp _ IH]; constructor; [|assumption].
  intros Hin. rewrite Forall_forall in Hp. specialize (Hp p Hin).
  unfold disjoint in Hp. lia.
Qed.

Lemma pairwise_FOP (ps : list Patch) :
  NoDup ps ->
  (forall p q, In p ps -> In q ps -> p = q \/ disjoint p q) ->
  ForallOrdPairs disjoint ps.
Proof.
  induction 1 as [|p ps Hnotin _ IH]; intros Hpair; constructor.
  - apply Forall_forall. intros q Hq.
    destruct (Hpair p q (or_introl eq_refl) (or_intror Hq)) as [->|H];
      [contradiction | assumption].
  - apply IH. intros a b Ha Hb. apply Hpair; now right.
Qed.

Lemma FOP_pairwise (ps : list Patch) (p q : Patch) :
  ForallOrdPairs disjoint ps -> In p ps -> In q ps -> p = q \/ disjoint p q.
Proof.
  intros H Hp Hq.
  destruct (ForallOrdPairs_In H p q Hp Hq) as [E|[E|E]];
    auto using disjoint_sym.
Qed.

Lemma FOP_Permutation (ps ps' : list Patch) :
  Permutation ps ps' ->
  ForallOrdPairs disjoint ps -> ForallOrdPairs disjoint ps'.
Proof.
  intros Hperm H. apply pairwise_FOP.
  - apply (Permutation_NoDup Hperm). now apply FOP_NoDup.
  - intros p q Hp Hq. apply (FOP_pairwise ps); [assumption| |];
      eapply Permutation_in; try eassumption; now apply Permutation_sym.
Qed.

Lemma patched_Permutation (data : bytes) (ps ps' : list Patch) (b : bytes) :
  Permutation ps ps' -> patched data ps b -> patched data ps' b.
Proof.
  intros Hperm (Hlen & Hin & Hout). repeat split.
  - assumption.
  - intros p Hp. apply Hin.
    eapply Permutation_in; [apply Permutation_sym|]; eassumption.
  - intros lo k Hc. apply Hout. intros p Hp. apply Hc.
    eapply Permutation_in; eassumption.
Qed.

(** X1. Committing the plan of [create_patches] a second time changes
    nothing: [apply_patches] does not look at the bytes it overwrites, and
    the second commit writes the same replacement bytes over the first. *)
Theorem X1_commit_twice_is_commit_once (data : bytes) (tw th : Z)
    (ps : list Patch) (out : list string) :
  create_patches data tw th = (Ok ps, out) ->
  let once := state_after (apply_patches data ps false) in
  apply_patches once ps false
  = (Ok once, once, printed (apply_patches data ps false)).
Proof.
  intros H. destruct (create_patches_plan_ok _ _ _ _ _ H) as [_ Hf Hb Hd].
  cbv zeta. rewrite (apply_patches_commit data ps Hf).
  unfold state_after, printed. cbn [fst snd].
  rewrite (apply_patches_commit _ ps Hf).
  pose proof (write_all_patched data ps Hd Hf Hb) as P1.
  assert (Hb' : Forall (in_bounds (write_all ps data)) ps).
  { destruct P1 as (Hlen & _). revert Hb. apply Forall_impl. intros p.
    now apply in_bounds_same_length. }
  pose proof (write_all_patched _ ps Hd Hf Hb') as P2.
  assert (E : write_all ps (write_all ps data) = write_all ps data).
  { apply (patched_unique data ps); [now apply (in_bounds_offsets data)| |assumption].
    destruct P1 as (L1 & I1 & O1). destruct P2 as (L2 & I2 & O2).
    repeat split.
    - congruence.
    - assumption.
    - intros lo k Hc. rewrite (O2 lo k Hc). now apply O1. }
  now rewrite E.
Qed.

Lemma X1_commit_twice_is_commit_once_witness :
  let once := state_after (apply_patches getters_image getters_plan false) in
  apply_patches once getters_plan false
  = (Ok once, once, printed (apply_patches getters_image getters_plan false)).
Proof.
  apply (X1_commit_twice_is_commit_once getters_image 5120 2880 getters_plan
           getters_output).
  vm_compute. reflexivity.
Defined.

(** X2. The order of the patches in a plan of [create_patches] does not
    matter: [apply_patches] on any permutation of the plan leaves the same
    buffer, since the accepted ranges are pairwise disjoint. *)
Theorem X2_commit_order_is_irrelevant (data : bytes) (tw th : Z)
    (ps ps' : list Patch) (out : list string) :
  create_patches data tw th = (Ok ps, out) ->
  Permutation ps ps' ->
  value_of (apply_patches data ps' false)
  = value_of (apply_patches data ps false)
  /\ state_after (apply_patches data ps' false)
     = state_after (apply_patches data ps false).
Proof.
  intros H Hperm.
  destruct (create_patches_plan_ok _ _ _ _ _ H) as [_ Hf Hb Hd].
  assert (Hf' : Forall four_bytes ps')
    by (eapply Permutation_Forall; eassumption).
  assert (Hb' : Forall (in_bounds data) ps')
    by (eapply Permutation_Forall; eassumption).
  pose proof (FOP_Permutation ps ps' Hperm Hd) as Hd'.
  rewrite (apply_patches_commit data ps Hf), (apply_patches_commit data ps' Hf').
  unfold value_of, state_after. cbn [fst snd].
  assert (E : write_all ps' data = write_all ps data).
  { apply (patched_unique data ps); [now apply (in_bounds_offsets data)| |].
    - apply (patched_Permutation data ps' ps); [now apply Permutation_sym|].
      now apply write_all_patched.
    - now apply write_all_patched. }
  now rewrite E.
Qed.

Lemma X2_commit_order_is_irrelevant_witness :
  value_of (apply_patches getters_image (rev getters_plan) false)
  = value_of (apply_patches getters_image getters_plan false)
  /\ state_after (apply_patches getters_image (rev getters_plan) false)
     = state_after (apply_patches getters_image getters_plan false).
Proof.
  apply (X2_commit_order_is_irrelevant getters_image 5120 2880 getters_plan
           (rev getters_plan) getters_output).
  - vm_compute. reflexivity.
  - apply Permutation_rev.
Defined.

Lemma spec_descriptors_same_target :
  Forall (fun d => replacement d = original d) (spec_descriptors 3840 2160).
Proof.
  unfold spec_descriptors, table_descriptors, code_descriptors.
  cbn [app]. each_element; reflexivity.
Qed.

(** X3. When the target is the original resolution 3840x2160, every
    replacement equals the bytes it replaces: committing the plan of
    [create_patches] leaves the buffer as it was, whatever was accepted. *)
Theorem X3_same_resolution_is_a_no_op (data : bytes) :
  exists ps out,
    create_patches data 3840 2160 = (Ok ps, out)
    /\ apply_patches data ps false
       = (Ok data, data, printed (apply_patches data ps false)).
Proof.
  assert (Hw : 0 <= 3840 < 2 ^ 32) by lia.
  assert (Hh : 0 <= 2160 < 2 ^ 32) by lia.
  pose proof (create_patches_eq data 3840 2160 Hw Hh) as H.
  eexists _, _. split; [exact H|].
  destruct (create_patches_plan_ok _ _ _ _ _ H) as [_ Hf Hb Hd].
  set (ps := filter (matches data) (spec_descriptors 3840 2160)) in *.
  rewrite (apply_patches_commit data ps Hf).
  unfold printed. cbn [snd].
  assert (E : write_all ps data = data).
  { apply (patched_unique data ps); [now apply (in_bounds_offsets data)| |].
    - now apply write_all_patched.
    - repeat split.
      intros p Hp. unfold ps in Hp. apply filter_In in Hp as [Hp Hm].
      pose proof spec_descriptors_same_target as Hsame.
      pose proof (spec_descriptors_offsets 3840 2160) as Ho.
      rewrite Forall_forall in Hsame, Ho.
      rewrite (Hsame p Hp). apply matches_true_iff in Hm.
      rewrite getslice_window in Hm by (try apply Ho; auto; lia).
      exact Hm. }
  now rewrite E.
Qed.

Lemma spec_descriptors_kind (tw th : Z) :
  Forall (fun d =>
            (original d = orig_width_bytes /\ replacement d = le_split 4 tw)
            \/ (original d = orig_height_bytes /\ replacement d = le_split 4 th))
    (spec_descriptors tw th).
Proof.
  unfold spec_descriptors, table_descriptors, code_descriptors.
  cbn [app]. each_element; cbn [original replacement]; tauto.
Qed.

Lemma unpack_I_pack_I (v : Z) (b : bytes) :
  pack_I v = Ok b -> unpack_I b = Ok v.
Proof.
  intros H. apply pack_I_Ok_inv in H as [Hv ->].
  rewrite unpack_I_Ok by apply length_le_split.
  rewrite le_combine_split. change (Z.of_nat 4 * 8) with 32.
  now rewrite Z.mod_small.
Qed.

(** X4. What the patched executable holds: before the commit each accepted
    offset reads, as a little-endian 32-bit integer, 3840 or 2160; after the
    commit the offsets that read 3840 read the target width, and those that
    read 2160 read the target height. *)
Theorem X4_patched_values_read_back (data : bytes) (tw th : Z)
    (ps : list Patch) (out : list string) :
  create_patches data tw th = (Ok ps, out) ->
  let data' := state_after (apply_patches data ps false) in
  Forall (fun p =>
            (unpack_I (getslice data (offset p) (offset p + 4)) = Ok 3840
             /\ unpack_I (getslice data' (offset p) (offset p + 4)) = Ok tw)
            \/ (unpack_I (getslice data (offset p) (offset p + 4)) = Ok 2160
                /\ unpack_I (getslice data' (offset p) (offset p + 4)) = Ok th))
    ps.
Proof.
  intros H. destruct (create_patches_Ok_inv _ _ _ _ _ H) as [Rw Rh].
  destruct (create_patches_plan_ok _ _ _ _ _ H) as [Hps Hf Hb Hd].
  cbv zeta. rewrite (apply_patches_commit data ps Hf).
  unfold state_after. cbn [fst snd].
  destruct (write_all_props ps Hd Hf data Hb) as (_ & _ & Hin).
  apply Forall_forall. intros p Hp.
  assert (Hspec : In p (spec_descriptors tw th) /\ matches data p = true)
    by (apply filter_In; now rewrite <- Hps).
  destruct Hspec as [Hspec Hm]. apply matches_true_iff in Hm.
  rewrite Forall_forall in Hb. destruct (Hb p Hp) as [H0 _].
  rewrite (getslice_window (write_all ps data)) by lia.
  change (Z.to_nat 4) with 4%nat. rewrite (Hin p Hp), Hm.
  pose proof (spec_descriptors_kind tw th) as Hk.
  rewrite Forall_forall in Hk.
  destruct (Hk p Hspec) as [[-> ->]|[-> ->]]; [left|right]; split.
  - apply unpack_I_pack_I, pack_I_3840.
  - apply unpack_I_pack_I. now apply pack_I_in_range.
  - apply unpack_I_pack_I, pack_I_2160.
  - apply unpack_I_pack_I. now apply pack_I_in_range.
Qed.

Lemma X4_patched_values_read_back_witness :
  let data' := state_after (apply_patches getters_image getters_plan false) in
  Forall (fun p =>
            (unpack_I (getslice getters_image (offset p) (offset p + 4))
             = Ok 3840
             /\ unpack_I (getslice data' (offset p) (offset p + 4)) = Ok 5120)
            \/ (unpack_I (getslice getters_image (offset p) (offset p + 4))
                = Ok 2160
                /\ unpack_I (getslice data' (offset p) (offset p + 4))
                   = Ok 2880))
    getters_plan.
Proof.
  apply (X4_patched_values_read_back getters_image 5120 2880 getters_plan
           getters_output).
  vm_compute. reflexivity.
Defined.

Lemma for_each_same_listing (ps : list Patch) (d1 d2 : bytes) :
  value_of (for_each ps (patch_step false) d1)
  = value_of (for_each ps (patch_step true) d2)
  /\ printed (for_each ps (patch_step false) d1)
     = printed (for_each ps (patch_step true) d2).
Proof.
  revert d1 d2. induction ps as [|p ps IH]; intros d1 d2; [now split|].
  rewrite !for_each_cons, !patch_step_eq.
  destruct (unpack_I (original p)) as [ov|e]; [|now split].
  destruct (unpack_I (replacement p)) as [nv|e]; [|now split].
  specialize (IH (write p d1) d2).
  destruct (for_each ps (patch_step false) (write p d1)) as [[r1 s1] o1].
  destruct (for_each ps (patch_step true) d2) as [[r2 s2] o2].
  unfold value_of, printed in *. cbn [fst snd] in *.
  destruct IH as [-> ->]. now split.
Qed.

(** X5. A dry run previews the commit: for every buffer and every plan,
    [apply_patches] prints the same lines in both modes but for the title
    line, and it raises in one mode exactly when it raises in the other. *)
Theorem X5_dry_run_previews_commit (data : bytes) (ps : list Patch) :
  exists rule listing,
    printed (apply_patches data ps false)
    = rule :: "PATCHES TO APPLY:" :: listing
    /\ printed (apply_patches data ps true)
       = rule :: "PATCHES (DRY RUN):" :: listing
    /\ forall e,
         value_of (apply_patches data ps false) = Raise e
         <-> value_of (apply_patches data ps true) = Raise e.
Proof.
  unfold apply_patches, apply_patches_body.
  cbv [bind print get negb].
  destruct (for_each_same_listing ps data data) as [Hv Ho].
  destruct (for_each ps (patch_step false) data) as [[r1 s1] o1].
  destruct (for_each ps (patch_step true) data) as [[r2 s2] o2].
  unfold value_of, printed in *. cbn [fst snd] in *. subst r2 o2.
  destruct r1 as [[]|e]; cbn [app fst snd];
    eexists _, _; (split; [reflexivity|]); (split; [reflexivity|]);
    intros e'; split; intros E; first [discriminate E | exact E].
Qed.

Lemma length_write_four (p : Patch) (data : bytes) :
  List.length (replacement p) = 4%nat ->
  (List.length data <= List.length (write p data))%nat.
Proof.
  intros Hr. unfold write, setslice, adjust, len.
  rewrite !length_app, length_firstn, length_skipn, Hr.
  destruct (offset p <? 0) eqn:E1;
    destruct (offset p + Z.of_nat 4 <? 0) eqn:E2;
    try apply Z.ltb_lt in E1; try apply Z.ltb_ge in E1;
    try apply Z.ltb_lt in E2; try apply Z.ltb_ge in E2; lia.
Qed.

Lemma unpack_I_Ok_inv (b : bytes) (v : Z) :
  unpack_I b = Ok v -> List.length b = 4%nat.
Proof.
  unfold unpack_I. destruct (Nat.eqb_spec (List.length b) 4); [trivial|].
  discriminate.
Qed.

Lemma for_each_never_shrinks (dry : bool) (ps : list Patch) (data : bytes) :
  (List.length data
   <= List.length (state_after (for_each ps (patch_step dry) data)))%nat.
Proof.
  revert data. induction ps as [|p ps IH]; intros data; [apply Nat.le_refl|].
  rewrite for_each_cons, patch_step_eq.
  destruct (unpack_I (original p)) as [ov|e]; [|apply Nat.le_refl].
  destruct (unpack_I (replacement p)) as [nv|e] eqn:Er; [|apply Nat.le_refl].
  apply unpack_I_Ok_inv in Er.
  specialize (IH (if dry then data else write p data)).
  destruct (for_each ps (patch_step dry) _) as [[r s] o].
  unfold state_after in *. cbn [fst snd] in *.
  destruct dry; [assumption|].
  pose proof (length_write_four p data Er). lia.
Qed.

(** X6. For every buffer and every plan, also one that [create_patches]
    did not produce (offsets out of range or negative), [apply_patches]
    never leaves a buffer shorter than it found it, whether it returns or
    raises: each slice assignment puts four bytes in the place of at most
    four. *)
Theorem X6_apply_never_shrinks (data : bytes) (ps : list Patch) (dry : bool) :
  (List.length data
   <= List.length (state_after (apply_patches data ps dry)))%nat.
Proof.
  unfold apply_patches, apply_patches_body.
  cbv [bind print get].
  pose proof (for_each_never_shrinks dry ps data) as H.
  destruct (for_each ps (patch_step dry) data) as [[[u|e] s] o];
    unfold state_after in *; cbn [fst snd] in *; exact H.
Qed.

(** X7. A file of fewer than 347451 bytes (0x054D3B, the end of the lowest
    patched range) cannot hold any of the six ranges: for representable
    targets [create_patches] accepts nothing. *)
Theorem X7_short_file_has_empty_plan (data : bytes) (tw th : Z) :
  0 <= tw < 2 ^ 32 -> 0 <= th < 2 ^ 32 -> len data < 0x054D3B ->
  fst (create_patches data tw th) = Ok [].
Proof.
  intros Hw Hh Hlen. rewrite (create_patches_eq data tw th Hw Hh).
  cbn [fst]. f_equal. apply filter_none. intros d Hd.
  destruct (matches data d) eqn:Em; [|reflexivity].
  apply matches_true_iff in Em.
  pose proof (spec_descriptors_offsets tw th) as Ho.
  pose proof (spec_descriptors_four_bytes tw th) as H4.
  rewrite Forall_forall in Ho, H4. destruct (H4 d Hd) as [Hlo _].
  pose proof (getslice_eq_in_bounds data (original d) (offset d)
                (Ho d Hd) Hlo Em) as Hb.
  assert (Hmin : Forall (fun d => 0x054D37 <= offset d) (spec_descriptors tw th)).
  { unfold spec_descriptors, table_descriptors, code_descriptors, table_offset.
    cbn [app]. each_element; cbn [offset]; lia. }
  rewrite Forall_forall in Hmin. specialize (Hmin d Hd). lia.
Qed.

Lemma X7_short_file_has_empty_plan_witness :
  fst (create_patches (repeat Byte.x00 1000) 5120 2880) = Ok [].
Proof.
  apply (X7_short_file_has_empty_plan (repeat Byte.x00 1000) 5120 2880).
  - lia.
  - lia.
  - vm_compute. reflexivity.
Defined.

(** ** The runs of [main], case by case *)

Section MainRuns.

Variable with_suffix : string -> string -> string.
Variable args : Args.
Variable fs : filesystem.

Lemma main_missing_file :
  fs (exe_path args) = None ->
  main with_suffix args fs =
  (Ok 1, fs, [fstr ["Error: File not found: "; exe_path args]]).
Proof.
  intros Hfs. unfold main, main_body.
  unfold bind at 1. unfold get at 1. now rewrite Hfs.
Qed.

Variable content : bytes.
Hypothesis Hfile : fs (exe_path args) = Some content.

(** A target of more than 4300 digits stops [main] at its second line. *)
Lemma main_unprintable :
  printable (width args) && printable (height args) = false ->
  main with_suffix args fs =
  (Raise ValueError, fs, ["Resolution Patch for The Hundred Line"]).
Proof.
  intros H. unfold main, main_body.
  unfold bind at 1. unfold get at 1. rewrite Hfile.
  unfold printable in H. unfold str.
  destruct (Z.abs (width args) <? 10 ^ max_str_digits); [|reflexivity].
  destruct (Z.abs (height args) <? 10 ^ max_str_digits);
    [discriminate H | reflexivity].
Qed.

Lemma main_plan_raises (e : exn) (out : list string) :
  printable (width args) && printable (height args) = true ->
  create_patches content (width args) (height args) = (Raise e, out) ->
  main with_suffix args fs = (Raise e, fs, banner args content ++ out).
Proof.
  intros Hp H. apply andb_true_iff in Hp as [Hw Hh].
  unfold printable in Hw, Hh. apply Z.ltb_lt in Hw, Hh.
  unfold main, main_body.
  unfold bind at 1. unfold get at 1. rewrite Hfile, H.
  rewrite (str_Ok _ Hw), (str_Ok _ Hh).
  reflexivity.
Qed.

Lemma main_empty_plan (out : list string) :
  create_patches content (width args) (height args) = (Ok [], out) ->
  main with_suffix args fs =
  (Ok 1, fs, banner args content ++ out ++ [no_patches_line]).
Proof.
  intros H. destruct (create_patches_Ok_inv _ _ _ _ _ H) as [Hw Hh].
  unfold main, main_body.
  unfold bind at 1. unfold get at 1. rewrite Hfile, H.
  rewrite (str_uint32 _ Hw), (str_uint32 _ Hh).
  reflexivity.
Qed.

Lemma main_dry_run (ps : list Patch) (out : list string) :
  create_patches content (width args) (height args) = (Ok ps, out) ->
  ps <> [] -> dry_run args = true ->
  main with_suffix args fs =
  (Ok 0, fs,
   banner args content ++ out
   ++ printed (apply_patches content ps true)
   ++ [fstr [nl; "[DRY RUN] No changes made."]]).
Proof.
  intros H Hne Hdry.
  destruct (create_patches_Ok_inv _ _ _ _ _ H) as [Hw Hh].
  destruct (create_patches_plan_ok _ _ _ _ _ H) as [_ Hf _ _].
  unfold main, main_body.
  unfold bind at 1. unfold get at 1. rewrite Hfile, H, Hdry.
  rewrite (str_uint32 _ Hw), (str_uint32 _ Hh).
  destruct ps as [|p ps']; [contradiction|].
  cbv [bind print call ret lift_result fst snd].
  rewrite (apply_patches_dry_run content _ Hf).
  cbv [call_on printed banner fst snd]. cbn [app].
  now rewrite <- !app_assoc.
Qed.

Lemma main_commit (ps : list Patch) (out : list string) :
  create_patches content (width args) (height args) = (Ok ps, out) ->
  ps <> [] -> dry_run args = false ->
  exists printed_lines,
    main with_suffix args fs =
    (Ok 0,
     write_file (exe_path args) (write_all ps content)
       (backup_step with_suffix args fs),
     printed_lines).
Proof.
  intros H Hne Hdry.
  destruct (create_patches_Ok_inv _ _ _ _ _ H) as [Hw Hh].
  destruct (create_patches_plan_ok _ _ _ _ _ H) as [_ Hf _ _].
  unfold main, main_body, backup_step.
  unfold bind at 1. unfold get at 1. rewrite Hfile, H, Hdry.
  rewrite (str_uint32 _ Hw), (str_uint32 _ Hh).
  destruct ps as [|p ps']; [contradiction|].
  cbv [bind print call ret get modify lift_result fst snd].
  rewrite (apply_patches_commit content _ Hf).
  cbv [call_on fst snd].
  destruct (no_backup args); cbn [negb]; [eexists; reflexivity|].
  destruct (path_exists fs (with_suffix (exe_path args) ".exe.backup"));
    cbn [negb]; eexists; reflexivity.
Qed.

End MainRuns.

Lemma replan_after_commit (data : bytes) (tw th : Z) (ps : list Patch)
    (out : list string) :
  pack_I tw <> pack_I 3840 -> pack_I th <> pack_I 2160 ->
  create_patches data tw th = (Ok ps, out) ->
  create_patches (write_all ps data) tw th =
  (Ok [], snd (create_patches (write_all ps data) tw th)).
Proof.
  intros Hw Hh H.
  destruct (create_patches_Ok_inv _ _ _ _ _ H) as [Rw Rh].
  destruct (create_patches_plan_ok _ _ _ _ _ H) as [Hps Hf Hb Hd].
  rewrite (pack_I_in_range tw Rw), pack_I_3840 in Hw.
  rewrite (pack_I_in_range th Rh), pack_I_2160 in Hh.
  assert (Hne : Forall (fun d => replacement d <> original d)
                  (spec_descriptors tw th)).
  { apply spec_descriptors_replacement_differs; intros E;
      [apply Hw | apply Hh]; now rewrite E. }
  rewrite (create_patches_eq _ tw th Rw Rh). cbn [snd]. do 2 f_equal.
  apply filter_none. intros d Hd'.
  destruct (write_all_props ps Hd Hf data Hb) as (_ & Hout & Hin).
  pose proof (spec_descriptors_offsets tw th) as Ho.
  rewrite Forall_forall in Ho, Hne.
  specialize (Ho d Hd'). specialize (Hne d Hd').
  apply bytes_eqb_neq. rewrite getslice_window by lia.
  change (Z.to_nat 4) with 4%nat.
  destruct (matches data d) eqn:Em.
  - assert (Hin' : In d ps) by (rewrite Hps; apply filter_In; tauto).
    now rewrite (Hin d Hin').
  - rewrite Hout.
    + apply bytes_eqb_neq in Em. now rewrite getslice_window in Em by lia.
    + intros p Hp. rewrite Hps in Hp. apply filter_In in Hp as [Hp Hm].
      destruct (spec_descriptors_pairwise tw th d p Hd' Hp) as [E|[E|E]].
      * subst p. congruence.
      * left. lia.
      * right. lia.
Qed.

Lemma write_file_same (p : string) (content : bytes) (fs : filesystem) :
  write_file p content fs p = Some content.
Proof. unfold write_file. now rewrite String.eqb_refl. Qed.

Lemma write_file_other (p q : string) (content : bytes) (fs : filesystem) :
  q <> p -> write_file p content fs q = fs q.
Proof.
  intros H. unfold write_file. apply String.eqb_neq in H. now rewrite H.
Qed.

(** X8. The exit status 1 of [main] has two causes and no other: the
    executable does not exist, or it exists and [create_patches] accepts
    nothing from it. *)
Theorem X8_exit_status_one (with_suffix : string -> string -> string)
    (args : Args) (fs : filesystem) :
  value_of (main with_suffix args fs) = Ok 1
  <-> (fs (exe_path args) = None
       \/ exists content,
            fs (exe_path args) = Some content
            /\ fst (create_patches content (width args) (height args)) = Ok []).
Proof.
  destruct (fs (exe_path args)) as [content|] eqn:Hfs.
  - destruct (create_patches content (width args) (height args))
      as [[ps|e] out] eqn:H.
    + destruct ps as [|p ps'].
      * rewrite (main_empty_plan with_suffix args fs content Hfs out H).
        split; [|reflexivity]. intros _. right. exists content.
        rewrite H. now split.
      * assert (Hne : p :: ps' <> []) by discriminate.
        assert (Hrun : value_of (main with_suffix args fs) = Ok 0).
        { destruct (dry_run args) eqn:Hdry.
          - now rewrite (main_dry_run with_suffix args fs content Hfs _ out H
                           Hne Hdry).
          - destruct (main_commit with_suffix args fs content Hfs _ out H
                        Hne Hdry) as [o ->]. reflexivity. }
        rewrite Hrun. split; [discriminate|].
        intros [Hnone|[c [Hc Hplan]]]; [discriminate|].
        injection Hc as <-. rewrite H in Hplan. discriminate.
    + assert (Hrun : exists e' out',
                main with_suffix args fs = (Raise e', fs, out')).
      { destruct (printable (width args) && printable (height args)) eqn:Hp.
        - rewrite (main_plan_raises with_suffix args fs content Hfs e out
                     Hp H). eauto.
        - rewrite (main_unprintable with_suffix args fs content Hfs Hp).
          eauto. }
      destruct Hrun as (e' & out' & ->).
      split; [discriminate|].
      intros [Hnone|[c [Hc Hplan]]]; [discriminate|].
      injection Hc as <-. rewrite H in Hplan. discriminate.
  - rewrite (main_missing_file with_suffix args fs Hfs).
    split; [now left | reflexivity].
Qed.






(** X11. The backup of a committed run, when the backup path is not the
    executable itself: with [--no-backup] the backup path is left alone;
    otherwise it holds the original bytes of the executable if it did not
    exist, and what it held before if it did. *)
Theorem X11_backup_holds_the_original
    (with_suffix : string -> string -> string) (args : Args)
    (fs : filesystem) (content : bytes) (ps : list Patch)
    (out : list string) :
  fs (exe_path args) = Some content ->
  create_patches content (width args) (height args) = (Ok ps, out) ->
  ps <> [] -> dry_run args = false ->
  with_suffix (exe_path args) ".exe.backup" <> exe_path args ->
  state_after (main with_suffix args fs)
    (with_suffix (exe_path args) ".exe.backup")
  = if no_backup args
    then fs (with_suffix (exe_path args) ".exe.backup")
    else match fs (with_suffix (exe_path args) ".exe.backup") with
         | Some old => Some old
         | None => Some content
         end.
Proof.
  intros Hfs H Hne Hdry Hpath.
  destruct (main_commit with_suffix args fs content Hfs ps out H Hne Hdry)
    as [o ->].
  unfold state_after. cbn [fst snd].
  rewrite write_file_other by assumption.
  unfold backup_step, copy2, path_exists. rewrite Hfs.
  destruct (no_backup args); cbn [negb]; [reflexivity|].
  destruct (fs (with_suffix (exe_path args) ".exe.backup")) as [old|] eqn:Hold;
    cbn [negb].
  - exact Hold.
  - apply write_file_same.
Qed.

Lemma X11_backup_holds_the_original_witness :
  state_after (main String.append commit_args getters_files)
    (String.append (exe_path commit_args) ".exe.backup")
  = if no_backup commit_args
    then getters_files (String.append (exe_path commit_args) ".exe.backup")
    else match getters_files
                 (String.append (exe_path commit_args) ".exe.backup") with
         | Some old => Some old
         | None => Some getters_image
         end.
Proof.
  apply (X11_backup_holds_the_original String.append commit_args
           getters_files getters_image getters_plan getters_output).
  - reflexivity.
  - vm_compute. reflexivity.
  - discriminate.
  - reflexivity.
  - vm_compute. discriminate.
Defined.

(** X12. Running the patcher again after a committed run, with the same
    arguments and a target whose encodings differ from those of 3840 and
    2160: the second run finds nothing to patch, returns 1 and changes no
    file, so the backup made by the first run still holds the original. *)
Theorem X12_second_run_fails_and_changes_nothing
    (with_suffix : string -> string -> string) (args : Args)
    (fs : filesystem) (content : bytes) (ps : list Patch)
    (out : list string) :
  fs (exe_path args) = Some content ->
  create_patches content (width args) (height args) = (Ok ps, out) ->
  ps <> [] -> dry_run args = false ->
  pack_I (width args) <> pack_I 3840 -> pack_I (height args) <> pack_I 2160 ->
  let fs' := state_after (main with_suffix args fs) in
  value_of (main with_suffix args fs') = Ok 1
  /\ state_after (main with_suffix args fs') = fs'.
Proof.
  intros Hfs H Hne Hdry Hw Hh. cbv zeta.
  destruct (main_commit with_suffix args fs content Hfs ps out H Hne Hdry)
    as [o ->].
  set (fs' := write_file (exe_path args) (write_all ps content)
                (backup_step with_suffix args fs)).
  change (state_after (Ok 0, fs', o)) with fs'.
  assert (Hfs' : fs' (exe_path args) = Some (write_all ps content))
    by apply write_file_same.
  rewrite (main_empty_plan with_suffix args fs' _ Hfs' _
             (replan_after_commit content _ _ ps out Hw Hh H)).
  now split.
Qed.

Lemma X12_second_run_fails_and_changes_nothing_witness :
  let fs' := state_after (main String.append commit_args getters_files) in
  value_of (main String.append commit_args fs') = Ok 1
  /\ state_after (main String.append commit_args fs') = fs'.
Proof.
  apply (X12_second_run_fails_and_changes_nothing String.append commit_args
           getters_files getters_image getters_plan getters_output).
  - reflexivity.
  - vm_compute. reflexivity.
  - discriminate.
  - reflexivity.
  - vm_compute. discriminate.
  - vm_compute. discriminate.
Defined.

(** X13. A target width or height outside [0, 2^32), of at most 4300
    digits as every int that [argparse] converts from the command line is,
    stops [main] with [struct.error] right after the header of
    [create_patches]: nothing of [apply_patches] is printed and no file is
    changed. *)
Theorem X13_unrepresentable_target_stops_main
    (with_suffix : string -> string -> string) (args : Args)
    (fs : filesystem) (content : bytes) :
  fs (exe_path args) = Some content ->
  printable (width args) && printable (height args) = true ->
  width args < 0 \/ 2 ^ 32 <= width args
  \/ height args < 0 \/ 2 ^ 32 <= height args ->
  main with_suffix args fs =
  (Raise StructError, fs,
   banner args content ++ [header_line (width args) (height args)]).
Proof.
  intros Hfs Hp Hrange.
  apply (main_plan_raises with_suffix args fs content Hfs _ _ Hp).
  apply create_patches_unpackable; [assumption | lia].
Qed.

Lemma X13_unrepresentable_target_stops_main_witness :
  main String.append (mkArgs "HUNDRED_LINE.exe" false (-1) 2880 false)
    getters_files =
  (Raise StructError, getters_files,
   banner (mkArgs "HUNDRED_LINE.exe" false (-1) 2880 false) getters_image
   ++ [header_line (-1) 2880]).
Proof.
  apply (X13_unrepresentable_target_stops_main String.append
           (mkArgs "HUNDRED_LINE.exe" false (-1) 2880 false) getters_files
           getters_image).
  - reflexivity.
  - vm_compute. reflexivity.
  - left. reflexivity.
Defined.

(** X14. A dry run of [main] on a plan that is not empty returns 0, leaves
    the files alone and prints, in this order, the banner, the output of
    [create_patches], the listing of [apply_patches] in dry-run mode and
    the line that no changes were made. *)
Theorem X14_dry_run_of_main (with_suffix : string -> string -> string)
    (args : Args) (fs : filesystem) (content : bytes) (ps : list Patch)
    (out : list string) :
  fs (exe_path args) = Some content ->
  create_patches content (width args) (height args) = (Ok ps, out) ->
  ps <> [] -> dry_run args = true ->
  main with_suffix args fs =
  (Ok 0, fs,
   banner args content ++ out
   ++ printed (apply_patches content ps true)
   ++ [fstr [nl; "[DRY RUN] No changes made."]]).
Proof.
  intros Hfs H Hne Hdry.
  exact (main_dry_run with_suffix args fs content Hfs ps out H Hne Hdry).
Qed.

Lemma X14_dry_run_of_main_witness :
  main String.append dry_run_args getters_files =
  (Ok 0, getters_files,
   banner dry_run_args getters_image ++ getters_output
   ++ printed (apply_patches getters_image getters_plan true)
   ++ [fstr [nl; "[DRY RUN] No changes made."]]).
Proof.
  apply (X14_dry_run_of_main String.append dry_run_args getters_files
           getters_image getters_plan getters_output).
  - reflexivity.
  - vm_compute. reflexivity.
  - discriminate.
  - reflexivity.
Defined.

(** X15. [apply_patches] is not atomic on a plan it was not given by
    [create_patches]: in commit mode it raises [struct.error] at the first
    patch whose original or replacement is not four bytes long, and the
    buffer then holds the writes of the patches before that one. *)
Theorem X15_commit_stops_at_first_malformed_patch (data : bytes)
    (good rest : list Patch) (bad : Patch) :
  Forall four_bytes good -> ~ four_bytes bad ->
  value_of (apply_patches data (good ++ bad :: rest) false) = Raise StructError
  /\ state_after (apply_patches data (good ++ bad :: rest) false)
     = write_all good data.
Proof.
  intros Hg Hb. exact (apply_patches_raises_mid_apply data good rest bad Hg Hb).
Qed.

Lemma X15_commit_stops_at_first_malformed_patch_witness :
  value_of (apply_patches (repeat Byte.x00 8)
              ([good_patch] ++ mismatched_patch :: []) false)
  = Raise StructError
  /\ state_after (apply_patches (repeat Byte.x00 8)
                    ([good_patch] ++ mismatched_patch :: []) false)
     = write_all [good_patch] (repeat Byte.x00 8).
Proof.
  apply (X15_commit_stops_at_first_malformed_patch (repeat Byte.x00 8)
           [good_patch] [] mismatched_patch).
  - each_element. split; reflexivity.
  - intros [_ H]. discriminate H.
Defined.
